(** * Metrics aggregation and statistical comparison

    A shallow embedding of the statistics code of the WebRTC performance
    scripts [overall_comparison.py] and [analyze_performance.py], and the
    properties of its aggregation, order statistics and comparison.

    Numbers.  The scripts compute with IEEE binary64 floats, and the
    numeric code is modelled twice.  In the first model a finite float is
    the rational it denotes ([Qc], canonical rationals, so that equal
    numbers are equal terms), arithmetic is exact, and [np.nan], the one
    non-finite float the code itself writes, is a constructor of
    [pyfloat].  This model carries the properties in which arithmetic
    plays no part (which values are aggregated and in which order, which
    keys exist, counts, extrema, guards, what raises) or is exact in
    binary64 too.  The second model ([compute_stats64]) runs the
    statistics on primitive binary64 floats, with their rounding,
    overflow and nan; it decides what the mean and the percentiles are on
    concrete inputs.

    Errors.  A Python exception is a [Raise e] result; [Ok v] is a normal
    return. *)

From Stdlib Require Import QArith Qcanon Qround Lqa.
From Stdlib Require Import Floats.PrimFloat Floats.FloatOps Floats.SpecFloat.
From stdpp Require Import base numbers list sorting gmap strings.

Set Warnings "-inexact-float".

Local Open Scope Z_scope.
Local Open Scope Qc_scope.

(** ** Exceptions as results *)

Inductive exn : Set :=
  | KeyError
  | ValueError
  | IndexError
  | ZeroDivisionError.

Inductive result (A : Type) : Type :=
  | Ok (a : A)
  | Raise (e : exn).
Arguments Ok {A} a.
Arguments Raise {A} e.

Definition rbind {A B} (r : result A) (k : A → result B) : result B :=
  match r with
  | Ok a => k a
  | Raise e => Raise e
  end.

Notation "x ←! r ; k" := (rbind r (λ x, k))
  (at level 20, r at level 100, k at level 200, only parsing).

Definition returns {A} (r : result A) : Prop := ∃ a, r = Ok a.

(** ** Floats *)

Inductive pyfloat : Type :=
  | Finite (q : Qc)
  | NaN.

Definition is_nan (f : pyfloat) : bool :=
  match f with
  | NaN => true
  | Finite _ => false
  end.

Definition Qc_of_nat (n : nat) : Qc := Qc_of_Z (Z.of_nat n).

(** [a / b] on Python floats: a zero divisor raises. *)
Definition py_div (a b : Qc) : result Qc :=
  if decide (b = 0) then Raise ZeroDivisionError else Ok (a / b).

(** ** The numpy reductions used by [compute_stats]

    These are library calls in the source; they are modelled after the
    numpy reference: [mean] is the sum over the size, [min]/[max] reduce
    with the binary minimum/maximum and reject an empty array, and
    [quantile] uses the default method, "linear".  They are given here
    on exact rationals and further down on binary64 floats ([np_mean64],
    [np_quantile64]). *)

Definition np_sum (arr : list Qc) : Qc := foldl Qcplus 0 arr.

(** [arr.mean()]: the empty array gives nan (0/0), no exception. *)
Definition np_mean (arr : list Qc) : pyfloat :=
  match arr with
  | [] => NaN
  | _ => Finite (np_sum arr / Qc_of_nat (length arr))
  end.

Definition Qcmin (x y : Qc) : Qc := if decide (x ≤ y) then x else y.
Definition Qcmax (x y : Qc) : Qc := if decide (x ≤ y) then y else x.

(** [arr.min()] and [arr.max()]: a zero-size array has no identity. *)
Definition np_min (arr : list Qc) : result Qc :=
  match arr with
  | [] => Raise ValueError
  | x :: rest => Ok (foldl Qcmin x rest)
  end.

Definition np_max (arr : list Qc) : result Qc :=
  match arr with
  | [] => Raise ValueError
  | x :: rest => Ok (foldl Qcmax x rest)
  end.

(** numpy's [_lerp]: [a + (b - a) * t], computed from the right end when
    [t >= 0.5]. *)
Definition np_lerp (a b t : Qc) : Qc :=
  if decide (1 / 2 ≤ t) then b - (b - a) * (1 - t) else a + (b - a) * t.

Definition Qc_floor (x : Qc) : Z := Qfloor x.

(** [np.quantile(arr, q)] with the linear method: the virtual index is
    [(n - 1) * q]; the two neighbouring order statistics are read at its
    floor and the next position, both clipped to the last position when
    the virtual index reaches it and to the first when it is negative. *)
Definition np_quantile (arr : list Qc) (q : Qc) : result Qc :=
  let sorted := merge_sort Qcle arr in
  let n := length sorted in
  match n with
  | O => Raise IndexError
  | S last =>
      let virtual_index := Qc_of_nat last * q in
      let previous_index :=
        if decide (Qc_of_nat last ≤ virtual_index) then last
        else if decide (virtual_index < 0) then O
        else Z.to_nat (Qc_floor virtual_index) in
      let next_index :=
        if decide (Qc_of_nat last ≤ virtual_index) then last
        else if decide (virtual_index < 0) then O
        else S (Z.to_nat (Qc_floor virtual_index)) in
      let gamma := virtual_index - Qc_of_Z (Qc_floor virtual_index) in
      Ok (np_lerp (nth previous_index sorted 0) (nth next_index sorted 0) gamma)
  end.

(** ** overall_comparison.py: [compute_stats] *)

Record Stats : Type := mkStats {
  st_mean : pyfloat;
  st_p50 : pyfloat;
  st_p95 : pyfloat;
  st_p99 : pyfloat;
  st_min : pyfloat;
  st_max : pyfloat;
  st_count : Z
}.

Definition q50 : Qc := Q2Qc (50 # 100).
Definition q95 : Qc := Q2Qc (95 # 100).
Definition q99 : Qc := Q2Qc (99 # 100).

Definition compute_stats (arr : list Qc) : result Stats :=
  if decide (length arr = O) then
    Ok (mkStats NaN NaN NaN NaN NaN NaN 0)
  else
    let mean := np_mean arr in
    p50 ←! np_quantile arr q50;
    p95 ←! np_quantile arr q95;
    p99 ←! np_quantile arr q99;
    mn ←! np_min arr;
    mx ←! np_max arr;
    Ok (mkStats mean (Finite p50) (Finite p95) (Finite p99)
          (Finite mn) (Finite mx) (Z.of_nat (length arr))).

Definition qz (z : Z) : Qc := Qc_of_Z z.



(** ** Session documents

    One JSON result file, as the scripts read it.  A key that the code reads
    with [.get(key, default)] or guards with [in] is an optional field. *)

Record MetricSample : Type := mkSample {
  timestamp : Z;
  value : Qc
}.

Record Summary : Type := mkSummary {
  samples : option Z;
  duration : option Z;
  metric_stats : gmap string (gmap string Qc)
}.

Record SessionData : Type := mkSession {
  data_sessionId : option string;
  data_interval : option Z;
  data_metrics : option (gmap string (list MetricSample));
  data_summary : option Summary
}.

Definition empty_summary : Summary := mkSummary None None ∅.

(** ** overall_comparison.py: [aggregate_metrics] *)

Definition METRIC_KEYS : list string :=
  ["latency"; "jitter"; "packetLoss"; "bitrate"; "frameRate"]%string.

Fixpoint rfoldl {A B} (f : B → A → result B) (b : B) (l : list A) : result B :=
  match l with
  | [] => Ok b
  | x :: l' => b' ←! f b x; rfoldl f b' l'
  end.

(** [d[key]]: a missing key raises. *)
Definition getitem {V} (d : gmap string V) (key : string) : result V :=
  match d !! key with
  | Some v => Ok v
  | None => Raise KeyError
  end.

(** [metrics[key].extend(point["value"] for point in series)] *)
Definition extend_metric (metrics : gmap string (list Qc)) (key : string)
    (series : list MetricSample) : result (gmap string (list Qc)) :=
  l ←! getitem metrics key;
  Ok (<[key := l ++ (value <$> series)]> metrics).

(** The body of [for key in METRIC_KEYS]. *)
Definition aggregate_key (m : gmap string (list MetricSample))
    (metrics : gmap string (list Qc)) (key : string)
    : result (gmap string (list Qc)) :=
  match m !! key with
  | None => Ok metrics
  | Some series => extend_metric metrics key series
  end.

Definition session_samples (data : SessionData) : Z :=
  let m := default ∅ (data_metrics data) in
  let summary := default empty_summary (data_summary data) in
  default (Z.of_nat (length (default [] (m !! "latency"%string))))
    (samples summary).

Definition session_duration (data : SessionData) : Z :=
  let summary := default empty_summary (data_summary data) in
  default 0%Z (duration summary).

Definition AggState : Type := gmap string (list Qc) * Z * Z.

(** The body of [for path in files], on the loaded document. *)
Definition aggregate_file (st : AggState) (data : SessionData)
    : result AggState :=
  let '(metrics, total_samples, total_duration_ms) := st in
  let m := default ∅ (data_metrics data) in
  metrics' ←! rfoldl (aggregate_key m) metrics METRIC_KEYS;
  Ok (metrics',
      (total_samples + session_samples data)%Z,
      (total_duration_ms + session_duration data)%Z).

Definition initial_metrics : gmap string (list Qc) :=
  list_to_map ((λ k, (k, [])) <$> METRIC_KEYS).

Definition aggregate_metrics (files : list SessionData) : result AggState :=
  rfoldl aggregate_file (initial_metrics, 0%Z, 0%Z) files.

(** ** overall_comparison.py: [build_bar_data] *)

Definition build_bar_data (baseline_metrics e2ee_metrics : gmap string (list Qc))
    (metric_key : string) : result (list pyfloat * list pyfloat) :=
  b_arr ←! getitem baseline_metrics metric_key;
  b_stats ←! compute_stats b_arr;
  e_arr ←! getitem e2ee_metrics metric_key;
  e_stats ←! compute_stats e_arr;
  Ok ([st_mean b_stats; st_p95 b_stats; st_p99 b_stats],
      [st_mean e_stats; st_p95 e_stats; st_p99 e_stats]).

(** ** analyze_performance.py: [extract_metrics_timeseries] *)

Record Row : Type := mkRow {
  row_timestamp : Z;
  row_value : Qc;
  elapsed_sec : Qc
}.

(** [pd.DataFrame(series)] with the added column
    [df.index * (interval / 1000)]; the index is [0 .. n-1]. *)
Definition timeseries_frame (data : SessionData) (series : list MetricSample)
    : list Row :=
  imap (λ i point,
          mkRow (timestamp point) (value point)
            (Qc_of_nat i * (qz (default 1000%Z (data_interval data)) / qz 1000)))
       series.

(** The body of [for metric_name in [...]]: a frame is stored only for a
    series that is present and non-empty. *)
Definition timeseries_step (data : SessionData)
    (metrics : gmap string (list MetricSample))
    (dfs : gmap string (list Row)) (metric_name : string)
    : gmap string (list Row) :=
  match metrics !! metric_name with
  | Some series =>
      if decide (0 < length series)%nat
      then <[metric_name := timeseries_frame data series]> dfs
      else dfs
  | None => dfs
  end.

(** [None] is the early [return None] when the document has no metrics.
    The metric names are a literal list in the source, equal to
    [METRIC_KEYS]. *)
Definition extract_metrics_timeseries (data : SessionData)
    : option (gmap string (list Row)) :=
  match data_metrics data with
  | None => None
  | Some metrics => Some (foldl (timeseries_step data metrics) ∅ METRIC_KEYS)
  end.

(** ** analyze_performance.py: the numerical comparison of
    [compare_two_tests] *)

Record ComparisonRow : Type := mkComparison {
  cmp_b_mean : Qc;
  cmp_e_mean : Qc;
  cmp_diff : Qc;
  cmp_pct : Qc
}.

(** [summary.get(metric, {}).get(stat, 0)] on [data.get('summary', {})]. *)
Definition summary_stat (data : SessionData) (metric stat : string) : Qc :=
  let summary := default empty_summary (data_summary data) in
  default 0 (default ∅ (metric_stats summary !! metric) !! stat).

Definition compare_metric (baseline e2ee : SessionData) (metric : string)
    : result ComparisonRow :=
  let b_mean := summary_stat baseline metric "mean" in
  let e_mean := summary_stat e2ee metric "mean" in
  let diff := e_mean - b_mean in
  pct ←! (if decide (0 < b_mean)
          then (r ←! py_div diff b_mean; Ok (r * qz 100))
          else Ok 0);
  Ok (mkComparison b_mean e_mean diff pct).

Definition COMPARED_METRICS : list string :=
  ["latency"; "jitter"; "packetLoss"; "bitrate"]%string.

Fixpoint rmap {A B} (f : A → result B) (l : list A) : result (list B) :=
  match l with
  | [] => Ok []
  | x :: l' => y ←! f x; ys ←! rmap f l'; Ok (y :: ys)
  end.

Definition compare_two_tests (baseline e2ee : SessionData)
    : result (list ComparisonRow) :=
  rmap (compare_metric baseline e2ee) COMPARED_METRICS.

(** ** Sample documents *)

Definition series_of (vs : list Z) : list MetricSample :=
  imap (λ i v, mkSample (1700000000000 + 1000 * Z.of_nat i) (qz v)) vs.

Definition session_with (m : gmap string (list MetricSample)) : SessionData :=
  mkSession None None (Some m) None.

Definition session_a : SessionData :=
  session_with {[ "latency"%string := series_of [10; 20]%Z ]}.
Definition session_b : SessionData :=
  session_with {[ "latency"%string := series_of [30]%Z ]}.

Definition session_jitter_only : SessionData :=
  session_with {[ "jitter"%string := series_of [5]%Z ]}.

Definition e2ee_mean_35 : SessionData :=
  mkSession None None None
    (Some (mkSummary None None
             {[ "latency"%string := {[ "mean"%string := qz 35 ]} ]})).

(** ** The properties, in the words of the specification *)

Global Instance result_fmap : FMap result := λ A B f r,
  match r with
  | Ok a => Ok (f a)
  | Raise e => Raise e
  end.

Definition Zsum (l : list Z) : Z := foldr Z.add 0%Z l.

(** What one session contributes to the flat value sequence of a metric
    kind: the values of its series, nothing when the kind is absent. *)
Definition session_values (key : string) (data : SessionData) : list Qc :=
  match data_metrics data with
  | Some m =>
      match m !! key with
      | Some series => value <$> series
      | None => []
      end
  | None => []
  end.

Definition metric_absent (key : string) (data : SessionData) : Prop :=
  match data_metrics data with
  | Some m => m !! key = None
  | None => True
  end.

Definition latency_length (data : SessionData) : Z :=
  Z.of_nat (length (session_values "latency" data)).

(** Session totals: the summary's own value when present; otherwise the
    length of the latency series for the sample count and zero for the
    duration. *)
Definition sample_contribution (data : SessionData) : Z :=
  match data_summary data with
  | Some s =>
      match samples s with
      | Some n => n
      | None => latency_length data
      end
  | None => latency_length data
  end.

Definition duration_contribution (data : SessionData) : Z :=
  match data_summary data with
  | Some s =>
      match duration s with
      | Some d => d
      | None => 0%Z
      end
  | None => 0%Z
  end.

Definition is_minimum (x : Qc) (l : list Qc) : Prop :=
  x ∈ l ∧ ∀ y, y ∈ l → x ≤ y.
Definition is_maximum (x : Qc) (l : list Qc) : Prop :=
  x ∈ l ∧ ∀ y, y ∈ l → y ≤ x.
(** Order on floats: every comparison with nan is false. *)
Definition pyfloat_le (x y : pyfloat) : Prop :=
  match x, y with
  | Finite a, Finite b => a ≤ b
  | _, _ => False
  end.

(** The loops of [aggregate_metrics] as map updates: the values one
    document adds under [key], appended under every key of a list. *)
Definition series_values (m : gmap string (list MetricSample)) (key : string)
    : list Qc :=
  match m !! key with
  | Some series => value <$> series
  | None => []
  end.

Definition add_values (vals : string → list Qc)
    (metrics : gmap string (list Qc)) (keys : list string)
    : gmap string (list Qc) :=
  foldl (λ acc k, alter (λ l, l ++ vals k) k acc) metrics keys.

Definition add_session (metrics : gmap string (list Qc)) (data : SessionData)
    : gmap string (list Qc) :=
  add_values (λ k, session_values k data) metrics METRIC_KEYS.

(** The frame [extract_metrics_timeseries] stores under a metric name, if
    any: the series must be present and non-empty. *)
Definition frame_for (data : SessionData)
    (metrics : gmap string (list MetricSample)) (metric_name : string)
    : option (list Row) :=
  match metrics !! metric_name with
  | Some series =>
      if decide (0 < length series)%nat
      then Some (timeseries_frame data series)
      else None
  | None => None
  end.

Definition session_a_dfs : gmap string (list Row) :=
  default ∅ (extract_metrics_timeseries session_a).
Definition session_a_frame : list Row :=
  default [] (session_a_dfs !! "latency"%string).

Definition has_metric_keys (metrics : gmap string (list Qc)) : Prop :=
  ∀ k, k ∈ METRIC_KEYS → is_Some (metrics !! k).

(** The value [np_quantile] reads off a sorted sequence of [last + 1]
    values at a virtual index [v ≥ 0]: the last value from [last] on,
    otherwise the point between the neighbours of [v]. *)
Definition interpolate (sorted : list Qc) (last : nat) (v : Qc) : Qc :=
  if decide (Qc_of_nat last ≤ v) then nth last sorted 0
  else
    let f := Z.to_nat (Qc_floor v) in
    nth f sorted 0 + (nth (S f) sorted 0 - nth f sorted 0) * (v - Qc_of_nat f).

(** [np_quantile] of a non-empty array, in closed form. *)
Definition quantile_at (arr : list Qc) (q : Qc) : Qc :=
  interpolate (merge_sort Qcle arr) (length arr - 1)
    (Qc_of_nat (length arr - 1) * q).

(** ** overall_comparison.py: [print_summary], [make_overall_plot], [main]

    What these functions print or draw is modelled by the values they
    format: the text layout, the [.2f] rounding and the rendering of the
    figure are outside the model. *)

Definition UNITS : gmap string string :=
  list_to_map
    [("latency", "ms"); ("jitter", "ms"); ("packetLoss", "%");
     ("bitrate", "kb/s"); ("frameRate", "fps")]%string.

Record SummaryBlock : Type := mkBlock {
  blk_metric : string;
  blk_units : string;
  blk_stats : Stats
}.

(** The body of [for metric_key in [...]] in [print_summary]. *)
Definition summary_block (metrics : gmap string (list Qc)) (metric_key : string)
    : result SummaryBlock :=
  arr ←! getitem metrics metric_key;
  stats ←! compute_stats arr;
  units ←! getitem UNITS metric_key;
  Ok (mkBlock metric_key units stats).

Record SummaryText : Type := mkSummaryText {
  txt_name : string;
  txt_total_samples : Z;
  txt_duration_s : Qc;
  txt_duration_min : Qc;
  txt_blocks : list SummaryBlock
}.

Definition print_summary (name : string) (metrics : gmap string (list Qc))
    (total_samples total_duration_ms : Z) : result SummaryText :=
  blocks ←! rmap (summary_block metrics) METRIC_KEYS;
  Ok (mkSummaryText name total_samples
        (qz total_duration_ms / qz 1000) (qz total_duration_ms / qz 60000)
        blocks).

(** The bar values of the four subplots of [make_overall_plot]. *)
Definition make_overall_plot (baseline_metrics e2ee_metrics : gmap string (list Qc))
    : result (list (list pyfloat * list pyfloat)) :=
  latency ←! build_bar_data baseline_metrics e2ee_metrics "latency";
  jitter ←! build_bar_data baseline_metrics e2ee_metrics "jitter";
  packet ←! build_bar_data baseline_metrics e2ee_metrics "packetLoss";
  bitrate ←! build_bar_data baseline_metrics e2ee_metrics "bitrate";
  Ok [latency; jitter; packet; bitrate].

(** How a script run ends: [sys.exit(code)], a normal end, or an uncaught
    exception. *)
Inductive outcome (A : Type) : Type :=
  | Exited (code : Z)
  | Completed (a : A)
  | Uncaught (e : exn).
Arguments Exited {A} code.
Arguments Completed {A} a.
Arguments Uncaught {A} e.

Record MainReport : Type := mkMainReport {
  main_baseline : SummaryText;
  main_e2ee : SummaryText;
  main_bars : list (list pyfloat * list pyfloat)
}.

Definition main_body (baseline_files e2ee_files : list SessionData)
    : result MainReport :=
  b ←! aggregate_metrics baseline_files;
  e ←! aggregate_metrics e2ee_files;
  b_text ←! print_summary "Baseline" b.1.1 b.1.2 b.2;
  e_text ←! print_summary "E2EE" e.1.1 e.1.2 e.2;
  bars ←! make_overall_plot b.1.1 e.1.1;
  Ok (mkMainReport b_text e_text bars).

(** [main], from the point where the directory has been tested
    ([is_dir]) and the two globs have been read into documents.  In the
    source the conversion [np.array(..., dtype=float)] of
    [aggregate_metrics], the number formatting and [savefig] can raise;
    they are outside this model, which therefore does not say when [main]
    raises. *)
Definition main (is_dir : bool) (baseline_files e2ee_files : list SessionData)
    : outcome MainReport :=
  if negb is_dir then Exited 1
  else
    match baseline_files, e2ee_files with
    | [], _ | _, [] => Exited 1
    | _, _ =>
        match main_body baseline_files e2ee_files with
        | Ok report => Completed report
        | Raise e => Uncaught e
        end
    end.

(** ** analyze_performance.py: the plots, [print_statistics] and
    [generate_report]

    A plot is modelled by what is drawn: the curve of
    [(elapsed_sec, value)] points and the horizontal statistic lines.
    [Series.mean] and [Series.quantile] of pandas (the latter with its
    default, linear interpolation) are the numpy reductions above.  A
    function that returns early without drawing gives [None]. *)

Record Plot : Type := mkPlot {
  plot_curve : list (Qc * Qc);
  plot_lines : list pyfloat
}.

Definition frame_curve (df : list Row) : list (Qc * Qc) :=
  (λ row, (elapsed_sec row, row_value row)) <$> df.

Definition plot_latency (dfs : gmap string (list Row)) : result (option Plot) :=
  match dfs !! "latency"%string with
  | None | Some [] => Ok None
  | Some df =>
      let mean := np_mean (row_value <$> df) in
      p95 ←! np_quantile (row_value <$> df) q95;
      p99 ←! np_quantile (row_value <$> df) q99;
      Ok (Some (mkPlot (frame_curve df) [mean; Finite p95; Finite p99]))
  end.

Definition plot_jitter (dfs : gmap string (list Row)) : result (option Plot) :=
  match dfs !! "jitter"%string with
  | None | Some [] => Ok None
  | Some df =>
      let mean := np_mean (row_value <$> df) in
      p95 ←! np_quantile (row_value <$> df) q95;
      Ok (Some (mkPlot (frame_curve df) [mean; Finite p95]))
  end.

Definition plot_packet_loss (dfs : gmap string (list Row)) : result (option Plot) :=
  match dfs !! "packetLoss"%string with
  | None | Some [] => Ok None
  | Some df => Ok (Some (mkPlot (frame_curve df) [np_mean (row_value <$> df)]))
  end.

Definition plot_bitrate (dfs : gmap string (list Row)) : result (option Plot) :=
  match dfs !! "bitrate"%string with
  | None | Some [] => Ok None
  | Some df => Ok (Some (mkPlot (frame_curve df) [np_mean (row_value <$> df)]))
  end.

(** One axis of [plot_all_metrics_combined]. *)
Definition combined_axis (dfs : gmap string (list Row)) (name : string)
    : option Plot :=
  match dfs !! name with
  | None | Some [] => None
  | Some df => Some (mkPlot (frame_curve df) [np_mean (row_value <$> df)])
  end.

Definition plot_all_metrics_combined (dfs : gmap string (list Row))
    : list (option Plot) :=
  combined_axis dfs <$> COMPARED_METRICS.

Definition STAT_KEYS : list string :=
  ["mean"; "p50"; "p95"; "p99"; "min"; "max"]%string.

(** [print_statistics]: a statistic the summary lacks is printed as
    ['N/A'], here [None]. *)
Record StatisticsText : Type := mkStatisticsText {
  stat_session : string;
  stat_duration_s : Qc;
  stat_samples : Z;
  stat_metrics : list (string * list (option Qc))
}.

Definition print_statistics (data : SessionData) : StatisticsText :=
  let summary := default empty_summary (data_summary data) in
  mkStatisticsText
    (default "Unknown"%string (data_sessionId data))
    (qz (default 0%Z (duration summary)) / qz 1000)
    (default 0%Z (samples summary))
    (omap (λ metric,
             stats ← metric_stats summary !! metric;
             Some (metric, (λ stat, stats !! stat) <$> STAT_KEYS))
          METRIC_KEYS).

Record Report : Type := mkReport {
  rep_statistics : StatisticsText;
  rep_latency : option Plot;
  rep_jitter : option Plot;
  rep_packet_loss : option Plot;
  rep_bitrate : option Plot;
  rep_combined : list (option Plot)
}.

(** [generate_report]; [None] is the early return on a document without
    metrics.  In the source [pd.to_datetime], [mkdir] and [savefig] can
    raise; they are outside this model, which therefore does not say when
    [generate_report] raises. *)
Definition generate_report (data : SessionData) : result (option Report) :=
  match extract_metrics_timeseries data with
  | None => Ok None
  | Some dfs =>
      let statistics := print_statistics data in
      latency ←! plot_latency dfs;
      jitter ←! plot_jitter dfs;
      packet_loss ←! plot_packet_loss dfs;
      bitrate ←! plot_bitrate dfs;
      Ok (Some (mkReport statistics latency jitter packet_loss bitrate
                  (plot_all_metrics_combined dfs)))
  end.


Definition baseline_mean_30 : SessionData :=
  mkSession None None None
    (Some (mkSummary None None
             {[ "latency"%string := {[ "mean"%string := qz 30 ]} ]})).

(** A plot function's result for one metric kind: nothing is drawn when
    the document has no values of that kind; otherwise the curve goes
    through all of them, with the given number of statistic lines. *)
Definition plotted (data : SessionData) (name : string) (lines : nat)
    (plot : option Plot) : Prop :=
  match session_values name data with
  | [] => plot = None
  | vs =>
      ∃ p, plot = Some p
           ∧ snd <$> plot_curve p = vs
           ∧ length (plot_lines p) = lines
  end.

(** ** The statistics in binary64

    The same numpy reductions on IEEE binary64 floats, which is what the
    scripts run on: sums and interpolation round, and can overflow to an
    infinity or give nan.  [arr.mean()] adds with numpy's pairwise
    summation (in sequence below 8 elements, with 8 accumulators up to
    128, by halves beyond) and divides by the size.  Arrays are taken
    without nan; an index is a [nat], so it is exact. *)

(** A size or an index as a float; exact below [2^53]. *)
Definition f64_of_nat (n : nat) : float :=
  Nat.iter n (λ x, x + 1)%float 0%float.

(** [floor] of a non-negative float, as an index. *)
Definition f64_floor (x : float) : nat :=
  match Prim2SF x with
  | S754_finite false m e => Z.to_nat (Z.shiftl (Z.pos m) e)
  | _ => O
  end.

Definition sum8 (r : list float) : float :=
  match r with
  | [r0; r1; r2; r3; r4; r5; r6; r7] =>
      (((r0 + r1) + (r2 + r3)) + ((r4 + r5) + (r6 + r7)))%float
  | _ => 0%float
  end.

(** Add [k] further blocks of 8 values into the 8 accumulators. *)
Fixpoint add_blocks (k : nat) (r l : list float) : list float * list float :=
  match k with
  | O => (r, l)
  | S k' => add_blocks k' (zip_with PrimFloat.add r (take 8 l)) (drop 8 l)
  end.

Definition block_sum (l : list float) : float :=
  let '(r, rest) := add_blocks (length l / 8 - 1) (take 8 l) (drop 8 l) in
  foldl PrimFloat.add (sum8 r) rest.

Fixpoint pairwise_sum (fuel : nat) (l : list float) : float :=
  let n := length l in
  if (n <? 8)%nat then foldl PrimFloat.add 0%float l
  else if (n <=? 128)%nat then block_sum l
  else
    match fuel with
    | O => 0%float
    | S fuel' =>
        let n2 := (n / 2 - (n / 2) mod 8)%nat in
        (pairwise_sum fuel' (take n2 l) + pairwise_sum fuel' (drop n2 l))%float
    end.

Definition np_sum64 (arr : list float) : float :=
  (0 + pairwise_sum (length arr) arr)%float.

Definition np_mean64 (arr : list float) : float :=
  (np_sum64 arr / f64_of_nat (length arr))%float.

(** [np.minimum] and [np.maximum] *)
Definition minimum64 (x y : float) : float :=
  if (x <? y)%float || PrimFloat.is_nan x then x else y.
Definition maximum64 (x y : float) : float :=
  if (y <? x)%float || PrimFloat.is_nan x then x else y.

Definition np_min64 (arr : list float) : result float :=
  match arr with
  | [] => Raise ValueError
  | x :: rest => Ok (foldl minimum64 x rest)
  end.

Definition np_max64 (arr : list float) : result float :=
  match arr with
  | [] => Raise ValueError
  | x :: rest => Ok (foldl maximum64 x rest)
  end.

Definition f64_le (x y : float) : Prop := (x <=? y)%float = true.

Global Instance f64_le_dec : RelDecision f64_le :=
  λ x y, decide ((x <=? y)%float = true).

Definition np_lerp64 (a b t : float) : float :=
  if (0.5 <=? t)%float then (b - (b - a) * (1 - t))%float
  else (a + (b - a) * t)%float.

Definition np_quantile64 (arr : list float) (q : float) : result float :=
  let sorted := merge_sort f64_le arr in
  match length sorted with
  | O => Raise IndexError
  | S last =>
      let virtual_index := (f64_of_nat last * q)%float in
      let above := (f64_of_nat last <=? virtual_index)%float in
      let below := (virtual_index <? 0)%float in
      let previous_index :=
        if above then last
        else if below then O
        else f64_floor virtual_index in
      let next_index :=
        if above then last
        else if below then O
        else S (f64_floor virtual_index) in
      let gamma :=
        if above then (virtual_index + 1)%float
        else (virtual_index - f64_of_nat previous_index)%float in
      Ok (np_lerp64 (nth previous_index sorted 0%float)
            (nth next_index sorted 0%float) gamma)
  end.

Record Stats64 : Type := mkStats64 {
  st64_mean : float;
  st64_p50 : float;
  st64_p95 : float;
  st64_p99 : float;
  st64_min : float;
  st64_max : float;
  st64_count : Z
}.

Definition compute_stats64 (arr : list float) : result Stats64 :=
  if decide (length arr = O) then
    Ok (mkStats64 PrimFloat.nan PrimFloat.nan PrimFloat.nan PrimFloat.nan
          PrimFloat.nan PrimFloat.nan 0)
  else
    let mean := np_mean64 arr in
    p50 ←! np_quantile64 arr 0.50%float;
    p95 ←! np_quantile64 arr 0.95%float;
    p99 ←! np_quantile64 arr 0.99%float;
    mn ←! np_min64 arr;
    mx ←! np_max64 arr;
    Ok (mkStats64 mean p50 p95 p99 mn mx (Z.of_nat (length arr))).

(** * Proofs *)

(** Closed equations on values that contain rationals: evaluate, then
    compare the rationals by their canonical fractions. *)
Ltac qc_refl :=
  vm_compute;
  repeat first [ reflexivity | apply Qc_is_canon; reflexivity | f_equal ].

Example compute_stats_example :
  compute_stats [qz 10; qz 20; qz 30; qz 40; qz 50]
  = Ok (mkStats (Finite (qz 30)) (Finite (qz 30)) (Finite (qz 48))
          (Finite (Q2Qc (496 # 10))) (Finite (qz 10)) (Finite (qz 50)) 5).
Proof. qc_refl. Qed.

Example compute_stats64_example :
  compute_stats64 [10; 20; 30; 40; 50]%float
  = Ok (mkStats64 30 30 48 49.6 10 50 5).
Proof. vm_compute. reflexivity. Qed.

Example aggregate_two_sessions :
  (λ st, (st.1.1 !! "latency"%string, st.1.2, st.2))
    <$> aggregate_metrics [session_a; session_b]
  = Ok (Some [qz 10; qz 20; qz 30], 3%Z, 0%Z).
Proof. qc_refl. Qed.

Example compare_concrete_scenario :
  compare_metric
    (mkSession None None None
       (Some (mkSummary None None
                {[ "latency"%string := {[ "mean"%string := qz 30 ]} ]})))
    e2ee_mean_35 "latency"
  = Ok (mkComparison (qz 30) (qz 35) (qz 5) (Q2Qc (50 # 3))).
Proof. qc_refl. Qed.

(** ** Rationals: from [Qc] to [Q] and back *)

Section bridge.
Implicit Types x y : Qc.

Lemma this_plus x y : (this (x + y) == this x + this y)%Q.
Proof. apply Qred_correct. Qed.
Lemma this_mult x y : (this (x * y) == this x * this y)%Q.
Proof. apply Qred_correct. Qed.
Lemma this_opp x : (this (- x) == - this x)%Q.
Proof. apply Qred_correct. Qed.
Lemma this_minus x y : (this (x - y) == this x - this y)%Q.
Proof. unfold Qcminus. rewrite this_plus, this_opp. reflexivity. Qed.
Lemma this_inv x : (this (/ x) == / this x)%Q.
Proof. apply Qred_correct. Qed.
Lemma this_div x y : (this (x / y) == this x / this y)%Q.
Proof. unfold Qcdiv. rewrite this_mult, this_inv. reflexivity. Qed.
Lemma this_Q2Qc (q : Q) : (this (Q2Qc q) == q)%Q.
Proof. apply Qred_correct. Qed.
Lemma this_of_Z (z : Z) : this (Qc_of_Z z) = inject_Z z.
Proof. reflexivity. Qed.
Lemma Qc_eq_Q x y : x = y ↔ (this x == this y)%Q.
Proof. split; [intros ->; reflexivity | apply Qc_is_canon]. Qed.
End bridge.

Ltac this_push :=
  repeat first
    [ rewrite this_plus | rewrite this_minus | rewrite this_mult
    | rewrite this_opp | rewrite this_div | rewrite this_inv
    | rewrite this_Q2Qc | rewrite this_of_Z ].
Ltac this_push_in H :=
  repeat first
    [ rewrite this_plus in H | rewrite this_minus in H
    | rewrite this_mult in H | rewrite this_opp in H
    | rewrite this_div in H | rewrite this_inv in H
    | rewrite this_Q2Qc in H | rewrite this_of_Z in H ].

(** Turn the hypotheses and the goal on [Qc] into statements on [Q], where
    [lra] and [nra] apply. *)
Ltac qc2q :=
  repeat match goal with
  | H : @eq Qc _ _ |- _ => apply Qc_eq_Q in H; this_push_in H
  | H : Qcle _ _ |- _ => unfold Qcle in H; this_push_in H
  | H : Qclt _ _ |- _ => unfold Qclt in H; this_push_in H
  | H : ¬ Qcle _ _ |- _ => apply Qcnot_le_lt in H
  | H : ¬ Qclt _ _ |- _ => apply Qcnot_lt_le in H
  end;
  try match goal with
  | |- @eq Qc _ _ => apply Qc_is_canon
  | |- Qcle _ _ => unfold Qcle
  | |- Qclt _ _ => unfold Qclt
  end;
  this_push.

(** ** Results *)

Lemma rbind_Ok {A B} (r : result A) (k : A → result B) (b : B) :
  rbind r k = Ok b ↔ ∃ a, r = Ok a ∧ k a = Ok b.
Proof.
  destruct r as [a|e]; simpl; split.
  - intros H. exists a. split; [reflexivity | exact H].
  - intros (a' & Ha & Hk). injection Ha as ->. exact Hk.
  - discriminate.
  - intros (a' & Ha & _). discriminate.
Qed.

(** ** The comparator guard *)

Lemma py_div_nonzero (a b : Qc) : b ≠ 0 → py_div a b = Ok (a / b).
Proof.
  intros Hb. unfold py_div.
  destruct (decide (b = 0)); [contradiction | reflexivity].
Qed.


Lemma compare_metric_returns (baseline e2ee : SessionData) (metric : string) :
  returns (compare_metric baseline e2ee metric).
Proof.
  unfold compare_metric, py_div.
  destruct (decide (0 < summary_stat baseline metric "mean")) as [Hpos|Hle];
    [| by eexists].
  destruct (decide (summary_stat baseline metric "mean" = 0)) as [Hz|Hnz];
    [| by eexists].
  rewrite Hz in Hpos. by apply Qclt_not_le in Hpos.
Qed.

Lemma rmap_returns {A B} (f : A → result B) (l : list A) :
  (∀ x, returns (f x)) → returns (rmap f l).
Proof.
  intros Hf. induction l as [|x l [ys IH]]; [by eexists |].
  destruct (Hf x) as [y Hy]. cbn [rmap]. rewrite Hy, IH. by eexists.
Qed.

(** The whole numerical comparison of [compare_two_tests] returns. *)
Lemma compare_two_tests_returns (baseline e2ee : SessionData) :
  returns (compare_two_tests baseline e2ee).
Proof. apply rmap_returns. intros metric. apply compare_metric_returns. Qed.


(** ** Statistics of the empty and of the one-element collection *)

(** C2 (as amended): on the empty collection [compute_stats] returns,
    without raising, [count = 0] and the float nan in every statistic
    field. *)
Theorem compute_stats_empty :
  compute_stats [] = Ok (mkStats NaN NaN NaN NaN NaN NaN 0).
Proof. reflexivity. Qed.

(** C2, counterexample: the sentinel of the empty collection is the float
    nan, and [build_bar_data] passes it on inside its float arrays without
    any check. *)
Lemma empty_stats_sentinel_is_nan :
  (is_nan ∘ st_mean) <$> compute_stats [] = Ok true
  ∧ build_bar_data initial_metrics initial_metrics "latency"
    = Ok ([NaN; NaN; NaN], [NaN; NaN; NaN]).
Proof. split; reflexivity. Qed.

Lemma np_lerp_same (a t : Qc) : np_lerp a a t = a.
Proof. unfold np_lerp. destruct (decide (1 / 2 ≤ t)); ring. Qed.

Lemma np_lerp_linear (a b t : Qc) : np_lerp a b t = a + (b - a) * t.
Proof. unfold np_lerp. destruct (decide (1 / 2 ≤ t)); ring. Qed.

Lemma Qc_of_nat_0 : Qc_of_nat 0 = 0.
Proof. apply Qc_is_canon. reflexivity. Qed.

Lemma np_quantile_singleton (v q : Qc) : np_quantile [v] q = Ok v.
Proof.
  unfold np_quantile. cbn [merge_sort merge_sort_aux merge_list_to_stack merge_stack
    list_merge length].
  rewrite Qc_of_nat_0, Qcmult_0_l.
  destruct (decide (0 ≤ 0)) as [_|Hn]; [| destruct Hn; apply Qcle_refl].
  simpl nth. by rewrite np_lerp_same.
Qed.

(** C8: the statistics of a one-element collection [[v]] are all [v], with
    [count = 1]. *)
Theorem compute_stats_singleton (v : Qc) :
  compute_stats [v]
  = Ok (mkStats (Finite v) (Finite v) (Finite v) (Finite v)
          (Finite v) (Finite v) 1).
Proof.
  unfold compute_stats. simpl decide. cbn iota.
  rewrite !np_quantile_singleton. simpl.
  do 2 f_equal. f_equal. unfold np_sum. simpl.
  qc2q. unfold Qc_of_nat. this_push. simpl. field.
Qed.

(** ** Aggregation across sessions *)

Section aggregate.
Implicit Types (metrics : gmap string (list Qc)) (data : SessionData)
  (files : list SessionData) (key k : string).

Lemma series_values_session key data :
  series_values (default ∅ (data_metrics data)) key = session_values key data.
Proof.
  unfold series_values, session_values.
  destruct (data_metrics data) as [m|]; simpl; [reflexivity |].
  by rewrite lookup_empty.
Qed.

Lemma aggregate_key_alter m metrics key :
  is_Some (metrics !! key) →
  aggregate_key m metrics key
  = Ok (alter (λ l, l ++ series_values m key) key metrics).
Proof.
  intros [l Hl]. unfold aggregate_key, series_values.
  destruct (m !! key) as [series|].
  - unfold extend_metric, getitem. rewrite Hl. simpl. f_equal.
    apply map_eq. intros j. rewrite lookup_alter, lookup_insert.
    destruct (decide (key = j)); [by rewrite Hl | reflexivity].
  - f_equal. symmetry. apply alter_id. intros x _. apply app_nil_r.
Qed.

Lemma rfoldl_aggregate_key m vals keys :
  (∀ k, series_values m k = vals k) →
  ∀ metrics,
  (∀ k, k ∈ keys → is_Some (metrics !! k)) →
  rfoldl (aggregate_key m) metrics keys = Ok (add_values vals metrics keys).
Proof.
  intros Hvals.
  induction keys as [|key keys IH]; intros metrics Hkeys; [reflexivity |].
  simpl. rewrite aggregate_key_alter by (apply Hkeys, elem_of_cons; by left).
  simpl. rewrite (Hvals key).
  apply IH. intros k Hk. rewrite lookup_alter_is_Some.
  apply Hkeys, elem_of_cons. by right.
Qed.

Lemma lookup_add_values vals keys : ∀ metrics k,
  NoDup keys →
  add_values vals metrics keys !! k
  = if decide (k ∈ keys) then (λ l, l ++ vals k) <$> metrics !! k
    else metrics !! k.
Proof.
  induction keys as [|key keys IH]; intros metrics k Hnd; [reflexivity |].
  apply NoDup_cons in Hnd as [Hnotin Hnd]. unfold add_values. simpl.
  fold (add_values vals (alter (λ l, l ++ vals key) key metrics) keys).
  rewrite IH by assumption. rewrite lookup_alter.
  destruct (decide (k ∈ key :: keys)) as [Hc%elem_of_cons|Hc%not_elem_of_cons];
    destruct (decide (k ∈ keys)), (decide (key = k)); subst;
    try done; exfalso; intuition congruence.
Qed.

Lemma NoDup_METRIC_KEYS : NoDup METRIC_KEYS.
Proof. compute_done. Qed.

Lemma lookup_add_session metrics data k :
  add_session metrics data !! k
  = if decide (k ∈ METRIC_KEYS)
    then (λ l, l ++ session_values k data) <$> metrics !! k
    else metrics !! k.
Proof. apply lookup_add_values, NoDup_METRIC_KEYS. Qed.

Lemma add_session_has_keys metrics data :
  has_metric_keys metrics → has_metric_keys (add_session metrics data).
Proof.
  intros H k Hk. rewrite lookup_add_session, decide_True by assumption.
  apply fmap_is_Some, H, Hk.
Qed.

Lemma session_samples_contribution data :
  session_samples data = sample_contribution data.
Proof.
  unfold session_samples, sample_contribution, latency_length, session_values.
  assert (length (default [] (default ∅ (data_metrics data) !! "latency"%string))
          = length match data_metrics data with
                   | Some m => match m !! "latency"%string with
                               | Some series => value <$> series
                               | None => []
                               end
                   | None => []
                   end) as ->.
  { destruct (data_metrics data) as [m|]; simpl; [| by rewrite lookup_empty].
    destruct (m !! "latency"%string); simpl; by rewrite ?length_fmap. }
  destruct (data_summary data) as [s|]; simpl; [| reflexivity].
  destruct (samples s); reflexivity.
Qed.

Lemma session_duration_contribution data :
  session_duration data = duration_contribution data.
Proof.
  unfold session_duration, duration_contribution.
  destruct (data_summary data) as [s|]; simpl; [| reflexivity].
  destruct (duration s); reflexivity.
Qed.

Lemma aggregate_file_Ok metrics ts td data :
  has_metric_keys metrics →
  aggregate_file (metrics, ts, td) data
  = Ok (add_session metrics data,
        (ts + sample_contribution data)%Z,
        (td + duration_contribution data)%Z).
Proof.
  intros H. unfold aggregate_file.
  rewrite (rfoldl_aggregate_key _ (λ k, session_values k data))
    by (exact H || intros; apply series_values_session).
  simpl. by rewrite session_samples_contribution, session_duration_contribution.
Qed.

Lemma aggregate_from files : ∀ metrics ts td,
  has_metric_keys metrics →
  rfoldl aggregate_file (metrics, ts, td) files
  = Ok (foldl add_session metrics files,
        (ts + Zsum (sample_contribution <$> files))%Z,
        (td + Zsum (duration_contribution <$> files))%Z).
Proof.
  induction files as [|data files IH]; intros metrics ts td H.
  - simpl. by rewrite !Z.add_0_r.
  - cbn [rfoldl]. rewrite aggregate_file_Ok by exact H.
    cbn [rbind]. rewrite IH by (by apply add_session_has_keys).
    simpl. by rewrite !Z.add_assoc.
Qed.

Lemma lookup_foldl_add_session files : ∀ metrics k,
  foldl add_session metrics files !! k
  = if decide (k ∈ METRIC_KEYS)
    then (λ l, l ++ mjoin (session_values k <$> files)) <$> metrics !! k
    else metrics !! k.
Proof.
  induction files as [|data files IH]; intros metrics k; simpl.
  - destruct (decide (k ∈ METRIC_KEYS)); [| reflexivity].
    destruct (metrics !! k); simpl; by rewrite ?app_nil_r.
  - rewrite IH, lookup_add_session.
    destruct (decide (k ∈ METRIC_KEYS)); [| reflexivity].
    destruct (metrics !! k); simpl; by rewrite ?app_assoc.
Qed.

Lemma lookup_initial_metrics k :
  initial_metrics !! k = if decide (k ∈ METRIC_KEYS) then Some [] else None.
Proof.
  unfold initial_metrics. generalize METRIC_KEYS as keys.
  induction keys as [|key keys IH]; [apply lookup_empty |].
  rewrite fmap_cons, list_to_map_cons, lookup_insert, IH.
  destruct (decide (k ∈ key :: keys)) as [Hc%elem_of_cons|Hc%not_elem_of_cons];
    destruct (decide (k ∈ keys)), (decide (key = k)); subst;
    try done; exfalso; intuition congruence.
Qed.

Lemma initial_metrics_has_keys : has_metric_keys initial_metrics.
Proof. intros k Hk. rewrite lookup_initial_metrics, decide_True; eauto. Qed.

Lemma aggregate_metrics_Ok files :
  aggregate_metrics files
  = Ok (foldl add_session initial_metrics files,
        Zsum (sample_contribution <$> files),
        Zsum (duration_contribution <$> files)).
Proof. apply (aggregate_from files _ 0%Z 0%Z), initial_metrics_has_keys. Qed.

Lemma lookup_aggregated files k :
  foldl add_session initial_metrics files !! k
  = if decide (k ∈ METRIC_KEYS)
    then Some (mjoin (session_values k <$> files))
    else None.
Proof.
  rewrite lookup_foldl_add_session, lookup_initial_metrics.
  destruct (decide (k ∈ METRIC_KEYS)); reflexivity.
Qed.
End aggregate.

(** C3 (as amended): the session totals are sums across the documents.
    The sample count adds the summary's [samples] of each document, or
    the length of its latency series when the summary has none; the
    duration adds the summary's [duration], or zero when the summary has
    none. *)
Theorem session_totals_are_sums (files : list SessionData) :
  (λ st, (st.1.2, st.2)) <$> aggregate_metrics files
  = Ok (Zsum (sample_contribution <$> files),
        Zsum (duration_contribution <$> files)).
Proof. by rewrite aggregate_metrics_Ok. Qed.

(** C3, counterexample: a document without a summary and with a latency
    series of length 2 adds 2 to the sample count, but 0 to the duration. *)
Lemma duration_fallback_is_zero :
  data_summary session_a = None
  ∧ latency_length session_a = 2%Z
  ∧ (λ st, (st.1.2, st.2)) <$> aggregate_metrics [session_a] = Ok (2%Z, 0%Z).
Proof. repeat split; vm_compute; reflexivity. Qed.

Lemma session_values_absent (key : string) (data : SessionData) :
  metric_absent key data → session_values key data = [].
Proof.
  unfold metric_absent, session_values.
  destruct (data_metrics data) as [m|]; [intros -> |]; reflexivity.
Qed.

(** C9: a document in which a metric kind is absent adds nothing under
    that kind and does not make [aggregate_metrics] raise; the values of
    the documents before and after it are all in the result, in order. *)
Theorem missing_metric_is_skipped (pre post : list SessionData)
    (data : SessionData) (key : string) :
  key ∈ METRIC_KEYS →
  metric_absent key data →
  ∃ st, aggregate_metrics (pre ++ data :: post) = Ok st
        ∧ st.1.1 !! key
          = Some (mjoin (session_values key <$> pre)
                  ++ mjoin (session_values key <$> post)).
Proof.
  intros Hkey Habs. eexists. split; [apply aggregate_metrics_Ok |].
  simpl. rewrite lookup_aggregated, decide_True by exact Hkey.
  rewrite fmap_app, fmap_cons, join_app. simpl.
  by rewrite session_values_absent.
Qed.

Lemma missing_metric_is_skipped_witness :
  ("latency"%string ∈ METRIC_KEYS
   ∧ metric_absent "latency" session_jitter_only)
  ∧ ∃ st, aggregate_metrics ([session_a] ++ session_jitter_only :: [session_b])
          = Ok st
          ∧ st.1.1 !! "latency"%string
            = Some (mjoin (session_values "latency" <$> [session_a])
                    ++ mjoin (session_values "latency" <$> [session_b])).
Proof.
  assert (Hkey : "latency"%string ∈ METRIC_KEYS) by (apply elem_of_cons; by left).
  assert (Habs : metric_absent "latency" session_jitter_only) by reflexivity.
  split; [split; assumption |].
  apply (missing_metric_is_skipped [session_a] [session_b] session_jitter_only
           "latency" Hkey Habs).
Defined.

(** C10: for every list of documents [aggregate_metrics] returns a mapping
    whose keys are exactly the five metric kinds; a kind that is absent
    from every document is mapped to the empty sequence. *)
Theorem aggregated_metrics_keys (files : list SessionData) :
  ∃ st, aggregate_metrics files = Ok st
        ∧ dom st.1.1 = list_to_set METRIC_KEYS
        ∧ ∀ key, key ∈ METRIC_KEYS →
                 Forall (metric_absent key) files →
                 st.1.1 !! key = Some [].
Proof.
  eexists. split; [apply aggregate_metrics_Ok |]. cbn [fst snd]. split.
  - apply set_eq. intros k.
    rewrite elem_of_dom, lookup_aggregated, elem_of_list_to_set.
    destruct (decide (k ∈ METRIC_KEYS)) as [Hk|Hk]; split; try done.
  - intros key Hkey Habs.
    rewrite lookup_aggregated, decide_True by exact Hkey. f_equal.
    induction Habs as [|data files Hd _ IH]; [reflexivity |].
    rewrite fmap_cons. simpl. by rewrite session_values_absent, IH.
Qed.

Lemma aggregated_metrics_keys_witness :
  ∃ st, aggregate_metrics [session_jitter_only] = Ok st
        ∧ dom st.1.1 = list_to_set METRIC_KEYS
        ∧ st.1.1 !! "latency"%string = Some [].
Proof.
  destruct (aggregated_metrics_keys [session_jitter_only])
    as (st & Hst & Hdom & Habsent).
  exists st. split; [exact Hst |]. split; [exact Hdom |].
  apply Habsent.
  - apply elem_of_cons. by left.
  - apply Forall_cons. split; [reflexivity | apply Forall_nil_2].
Defined.

(** ** The elapsed-time axis *)

Section timeseries.
Variable data : SessionData.
Variable metrics : gmap string (list MetricSample).
Implicit Types (dfs : gmap string (list Row)) (key k : string).

Lemma lookup_timeseries_step dfs key k :
  timeseries_step data metrics dfs key !! k
  = match (if decide (key = k) then frame_for data metrics k else None) with
    | Some frame => Some frame
    | None => dfs !! k
    end.
Proof.
  unfold timeseries_step, frame_for. destruct (decide (key = k)) as [->|Hne].
  - destruct (metrics !! k) as [series|]; [| reflexivity].
    destruct (decide (0 < length series)%nat); [| reflexivity].
    by rewrite lookup_insert_eq.
  - destruct (metrics !! key) as [series|]; [| reflexivity].
    destruct (decide (0 < length series)%nat); [| reflexivity].
    by rewrite lookup_insert_ne.
Qed.

Lemma lookup_timeseries_fold (keys : list string) :
  ∀ dfs k,
  foldl (timeseries_step data metrics) dfs keys !! k
  = match (if decide (k ∈ keys) then frame_for data metrics k else None) with
    | Some frame => Some frame
    | None => dfs !! k
    end.
Proof.
  induction keys as [|key keys IH]; intros dfs k; [reflexivity |].
  cbn [foldl]. rewrite IH, lookup_timeseries_step.
  destruct (decide (k ∈ key :: keys)) as [Hc%elem_of_cons|Hc%not_elem_of_cons];
    destruct (decide (k ∈ keys)), (decide (key = k));
    destruct (frame_for data metrics k); subst;
    try done; exfalso; intuition congruence.
Qed.
End timeseries.

Lemma lookup_timeseries_frame (data : SessionData) (series : list MetricSample)
    (i : nat) :
  timeseries_frame data series !! i
  = (λ point,
       mkRow (timestamp point) (value point)
         (Qc_of_nat i * qz (default 1000%Z (data_interval data)) / qz 1000))
    <$> series !! i.
Proof.
  unfold timeseries_frame. rewrite list_lookup_imap.
  destruct (series !! i); simpl; [| reflexivity].
  do 2 f_equal. unfold Qcdiv. apply Qcmult_assoc.
Qed.

(** Every recognised, non-empty series of a document gets its frame. *)
Lemma extract_metrics_timeseries_frame (data : SessionData)
    (metrics : gmap string (list MetricSample)) (metric_name : string)
    (series : list MetricSample) :
  data_metrics data = Some metrics →
  metric_name ∈ METRIC_KEYS →
  metrics !! metric_name = Some series →
  series ≠ [] →
  ∃ dfs, extract_metrics_timeseries data = Some dfs
         ∧ dfs !! metric_name = Some (timeseries_frame data series).
Proof.
  intros Hm Hname Hseries Hne. unfold extract_metrics_timeseries.
  rewrite Hm. eexists. split; [reflexivity |].
  rewrite lookup_timeseries_fold, decide_True by exact Hname.
  unfold frame_for. rewrite Hseries.
  rewrite decide_True; [reflexivity |]. destruct series; [done | simpl; lia].
Qed.



(** ** Integers among the rationals, and the floor *)

Section floor.
Implicit Types (v : Qc) (n : nat).

Lemma this_of_nat n : this (Qc_of_nat n) = inject_Z (Z.of_nat n).
Proof. reflexivity. Qed.

Lemma Qc_of_nat_le n1 n2 : (n1 ≤ n2)%nat → Qc_of_nat n1 ≤ Qc_of_nat n2.
Proof.
  intros H. unfold Qcle. rewrite !this_of_nat, <- Zle_Qle. lia.
Qed.

Lemma Qc_of_nat_nonneg n : 0 ≤ Qc_of_nat n.
Proof. rewrite <- Qc_of_nat_0. apply Qc_of_nat_le. lia. Qed.

(** A virtual index inside [0, last) splits into the position of its
    floor and a fraction in [0, 1). *)
Lemma floor_split v last :
  0 ≤ v → v < Qc_of_nat last →
  (Z.to_nat (Qc_floor v) < last)%nat
  ∧ Qc_of_Z (Qc_floor v) = Qc_of_nat (Z.to_nat (Qc_floor v))
  ∧ 0 ≤ v - Qc_of_Z (Qc_floor v)
  ∧ v - Qc_of_Z (Qc_floor v) < 1.
Proof.
  intros H0 Hlast.
  assert (Hnn : (0 ≤ Qc_floor v)%Z).
  { unfold Qc_floor. change 0%Z with (Qfloor 0). by apply Qfloor_resp_le. }
  assert (Hlt : (Qc_floor v < Z.of_nat last)%Z).
  { rewrite Zlt_Qlt. eapply Qle_lt_trans; [apply Qfloor_le |]. exact Hlast. }
  pose proof (Qfloor_le v) as Hfl. pose proof (Qlt_floor v) as Hfu.
  rewrite inject_Z_plus in Hfu. fold (Qc_floor v) in Hfl, Hfu.
  repeat split.
  - lia.
  - unfold Qc_of_nat. by rewrite Z2Nat.id.
  - qc2q. lra.
  - qc2q. change (inject_Z 1) with 1%Q in Hfu. lra.
Qed.

End floor.

(** ** The mean *)

Lemma np_mean_nonempty (arr : list Qc) :
  arr ≠ [] → np_mean arr = Finite (np_sum arr / Qc_of_nat (length arr)).
Proof. destruct arr; [done | reflexivity]. Qed.

(** ** Extrema *)

Section extrema.
Implicit Types (l arr : list Qc) (x y : Qc).

Lemma Qcmin_spec x y : Qcmin x y ≤ x ∧ Qcmin x y ≤ y ∧ (Qcmin x y = x ∨ Qcmin x y = y).
Proof.
  unfold Qcmin. destruct (decide (x ≤ y)) as [H|H].
  - repeat split; [apply Qcle_refl | exact H | by left].
  - apply Qcnot_le_lt, Qclt_le_weak in H.
    repeat split; [exact H | apply Qcle_refl | by right].
Qed.

Lemma Qcmax_spec x y : x ≤ Qcmax x y ∧ y ≤ Qcmax x y ∧ (Qcmax x y = x ∨ Qcmax x y = y).
Proof.
  unfold Qcmax. destruct (decide (x ≤ y)) as [H|H].
  - repeat split; [exact H | apply Qcle_refl | by right].
  - apply Qcnot_le_lt, Qclt_le_weak in H.
    repeat split; [apply Qcle_refl | exact H | by left].
Qed.

Lemma foldl_Qcmin_minimum l : ∀ x, is_minimum (foldl Qcmin x l) (x :: l).
Proof.
  induction l as [|y l IH]; intros x; cbn [foldl].
  - split; [by apply elem_of_cons; left |].
    intros z [->|Hz]%elem_of_cons; [apply Qcle_refl | by apply elem_of_nil in Hz].
  - destruct (IH (Qcmin x y)) as [Hin Hle].
    destruct (Qcmin_spec x y) as (Hx & Hy & Hxy).
    split.
    + apply elem_of_cons in Hin as [->|Hin].
      * destruct Hxy as [->| ->]; [by apply elem_of_cons; left |].
        apply elem_of_cons; right. by apply elem_of_cons; left.
      * apply elem_of_cons; right. by apply elem_of_cons; right.
    + assert (Hm : foldl Qcmin (Qcmin x y) l ≤ Qcmin x y)
        by (apply Hle, elem_of_cons; by left).
      intros z [->|[->|Hz]%elem_of_cons]%elem_of_cons.
      * by apply Qcle_trans with (Qcmin x y).
      * by apply Qcle_trans with (Qcmin x y).
      * apply Hle, elem_of_cons. by right.
Qed.

Lemma foldl_Qcmax_maximum l : ∀ x, is_maximum (foldl Qcmax x l) (x :: l).
Proof.
  induction l as [|y l IH]; intros x; cbn [foldl].
  - split; [by apply elem_of_cons; left |].
    intros z [->|Hz]%elem_of_cons; [apply Qcle_refl | by apply elem_of_nil in Hz].
  - destruct (IH (Qcmax x y)) as [Hin Hle].
    destruct (Qcmax_spec x y) as (Hx & Hy & Hxy).
    split.
    + apply elem_of_cons in Hin as [->|Hin].
      * destruct Hxy as [->| ->]; [by apply elem_of_cons; left |].
        apply elem_of_cons; right. by apply elem_of_cons; left.
      * apply elem_of_cons; right. by apply elem_of_cons; right.
    + assert (Hm : Qcmax x y ≤ foldl Qcmax (Qcmax x y) l)
        by (apply Hle, elem_of_cons; by left).
      intros z [->|[->|Hz]%elem_of_cons]%elem_of_cons.
      * by apply Qcle_trans with (Qcmax x y).
      * by apply Qcle_trans with (Qcmax x y).
      * apply Hle, elem_of_cons. by right.
Qed.

Lemma np_min_minimum arr :
  arr ≠ [] → ∃ mn, np_min arr = Ok mn ∧ is_minimum mn arr.
Proof.
  destruct arr as [|x rest]; [done |]. intros _.
  eexists. split; [reflexivity | apply foldl_Qcmin_minimum].
Qed.

Lemma np_max_maximum arr :
  arr ≠ [] → ∃ mx, np_max arr = Ok mx ∧ is_maximum mx arr.
Proof.
  destruct arr as [|x rest]; [done |]. intros _.
  eexists. split; [reflexivity | apply foldl_Qcmax_maximum].
Qed.

Lemma is_minimum_unique x y l l' :
  l ≡ₚ l' → is_minimum x l → is_minimum y l' → x = y.
Proof.
  intros Hp [Hx Hxle] [Hy Hyle]. apply Qcle_antisym.
  - apply Hxle. by rewrite Hp.
  - apply Hyle. by rewrite <- Hp.
Qed.

Lemma is_maximum_unique x y l l' :
  l ≡ₚ l' → is_maximum x l → is_maximum y l' → x = y.
Proof.
  intros Hp [Hx Hxle] [Hy Hyle]. apply Qcle_antisym.
  - apply Hyle. by rewrite <- Hp.
  - apply Hxle. by rewrite Hp.
Qed.

End extrema.

(** ** Order statistics *)

Section quantile.
Implicit Types (s arr : list Qc) (q v : Qc).

Lemma merge_sort_length arr : length (merge_sort Qcle arr) = length arr.
Proof. apply Permutation_length, merge_sort_Permutation. Qed.

Lemma merge_sort_unique arr s :
  Sorted Qcle s → s ≡ₚ arr → merge_sort Qcle arr = s.
Proof.
  intros Hs Hp. apply (Sorted_unique Qcle).
  - apply Sorted_merge_sort; apply _.
  - exact Hs.
  - by rewrite merge_sort_Permutation.
Qed.

Lemma np_quantile_interpolate arr q :
  arr ≠ [] → 0 ≤ q →
  np_quantile arr q
  = Ok (interpolate (merge_sort Qcle arr) (length arr - 1)
          (Qc_of_nat (length arr - 1) * q)).
Proof.
  intros Hne Hq. unfold np_quantile, interpolate.
  rewrite merge_sort_length.
  destruct arr as [|x arr]; [done |]. cbn [length].
  replace (S (length arr) - 1)%nat with (length arr) by lia.
  set (last := length arr). set (v := Qc_of_nat last * q).
  assert (Hv : 0 ≤ v).
  { pose proof (Qc_of_nat_nonneg last). subst v. qc2q. nra. }
  destruct (decide (Qc_of_nat last ≤ v)) as [Habove|Hin].
  - by rewrite np_lerp_same.
  - destruct (decide (v < 0)) as [Hneg|_].
    { exfalso. by apply Qclt_not_le in Hneg. }
    apply Qcnot_le_lt in Hin.
    destruct (floor_split v last Hv Hin) as (_ & Hfl & _).
    rewrite np_lerp_linear, Hfl. reflexivity.
Qed.
End quantile.

Section compute_stats.
Implicit Types arr : list Qc.

Lemma compute_stats_nonempty arr :
  arr ≠ [] →
  ∃ mn mx,
    is_minimum mn arr ∧ is_maximum mx arr
    ∧ compute_stats arr
      = Ok (mkStats (Finite (np_sum arr / Qc_of_nat (length arr)))
              (Finite (quantile_at arr q50)) (Finite (quantile_at arr q95))
              (Finite (quantile_at arr q99))
              (Finite mn) (Finite mx) (Z.of_nat (length arr))).
Proof.
  intros Hne.
  destruct (np_min_minimum arr Hne) as (mn & Hmn & Hmin).
  destruct (np_max_maximum arr Hne) as (mx & Hmx & Hmax).
  exists mn, mx. split; [exact Hmin |]. split; [exact Hmax |].
  unfold compute_stats.
  rewrite decide_False by (by destruct arr).
  rewrite !np_quantile_interpolate, Hmn, Hmx, np_mean_nonempty;
    try done; try (by vm_compute).
Qed.

End compute_stats.

Lemma aggregated_values_Permutation (files files' : list SessionData) (key : string) :
  files ≡ₚ files' →
  mjoin (session_values key <$> files) ≡ₚ mjoin (session_values key <$> files').
Proof. intros Hp. by rewrite Hp. Qed.

(** ** Count, extrema and order independence *)

Lemma quantile_at_Permutation (arr arr' : list Qc) (q : Qc) :
  arr ≡ₚ arr' → quantile_at arr q = quantile_at arr' q.
Proof.
  intros Hp. unfold quantile_at.
  rewrite (merge_sort_unique arr (merge_sort Qcle arr')), (Permutation_length Hp).
  - reflexivity.
  - apply Sorted_merge_sort; apply _.
  - by rewrite merge_sort_Permutation.
Qed.

(** Everything [compute_stats] returns except the mean is the same for two
    arrangements of the same values. *)
Lemma compute_stats_Permutation_fields (arr arr' : list Qc) :
  arr ≡ₚ arr' →
  ∃ s s',
    compute_stats arr = Ok s ∧ compute_stats arr' = Ok s'
    ∧ st_count s = st_count s'
    ∧ st_min s = st_min s' ∧ st_max s = st_max s'
    ∧ st_p50 s = st_p50 s' ∧ st_p95 s = st_p95 s' ∧ st_p99 s = st_p99 s'.
Proof.
  intros Hp. destruct (decide (arr = [])) as [->|Hne].
  - apply Permutation_nil_l in Hp. subst arr'. eexists _, _.
    split; [reflexivity |]. split; [reflexivity |]. by repeat split.
  - assert (Hne' : arr' ≠ []) by (intros ->; by apply Permutation_nil_r in Hp).
    destruct (compute_stats_nonempty arr Hne) as (mn & mx & Hmn & Hmx & ->).
    destruct (compute_stats_nonempty arr' Hne') as (mn' & mx' & Hmn' & Hmx' & ->).
    eexists _, _. split; [reflexivity |]. split; [reflexivity |].
    cbn [st_count st_min st_max st_p50 st_p95 st_p99].
    rewrite (Permutation_length Hp), !(quantile_at_Permutation arr arr') by done.
    rewrite (is_minimum_unique mn mn' arr arr') by done.
    rewrite (is_maximum_unique mx mx' arr arr') by done.
    by repeat split.
Qed.




(** C5 (as amended): aggregating a permutation of the documents gives,
    for every metric kind, a permutation of the same values; and for every
    arrangement of those values [compute_stats] returns the same count,
    minimum, maximum and percentiles.  The mean is left out: it is a sum
    in sequence order. *)
Theorem aggregation_order_independent_except_mean
    (files files' : list SessionData) (key : string) :
  files ≡ₚ files' →
  key ∈ METRIC_KEYS →
  ∃ st st' vs vs',
    aggregate_metrics files = Ok st
    ∧ aggregate_metrics files' = Ok st'
    ∧ st.1.1 !! key = Some vs
    ∧ st'.1.1 !! key = Some vs'
    ∧ vs ≡ₚ vs'
    ∧ ∀ ws, ws ≡ₚ vs →
        ∃ s s',
          compute_stats ws = Ok s ∧ compute_stats vs' = Ok s'
          ∧ st_count s = st_count s'
          ∧ st_min s = st_min s' ∧ st_max s = st_max s'
          ∧ st_p50 s = st_p50 s' ∧ st_p95 s = st_p95 s'
          ∧ st_p99 s = st_p99 s'.
Proof.
  intros Hp Hkey. eexists _, _, _, _.
  split; [apply aggregate_metrics_Ok |].
  split; [apply aggregate_metrics_Ok |]. cbn [fst snd].
  rewrite !lookup_aggregated, !decide_True by done.
  split; [reflexivity |]. split; [reflexivity |].
  pose proof (aggregated_values_Permutation files files' key Hp) as Hvs.
  split; [exact Hvs |].
  intros ws Hws. apply compute_stats_Permutation_fields. by rewrite Hws.
Qed.

Lemma aggregation_order_independent_except_mean_witness :
  ([session_a; session_b] ≡ₚ [session_b; session_a]
   ∧ "latency"%string ∈ METRIC_KEYS)
  ∧ ∃ st st' vs vs',
      aggregate_metrics [session_a; session_b] = Ok st
      ∧ aggregate_metrics [session_b; session_a] = Ok st'
      ∧ st.1.1 !! "latency"%string = Some vs
      ∧ st'.1.1 !! "latency"%string = Some vs'
      ∧ vs ≡ₚ vs'
      ∧ ∀ ws, ws ≡ₚ vs →
          ∃ s s',
            compute_stats ws = Ok s ∧ compute_stats vs' = Ok s'
            ∧ st_count s = st_count s'
            ∧ st_min s = st_min s' ∧ st_max s = st_max s'
            ∧ st_p50 s = st_p50 s' ∧ st_p95 s = st_p95 s'
            ∧ st_p99 s = st_p99 s'.
Proof.
  assert (Hp : [session_a; session_b] ≡ₚ [session_b; session_a])
    by apply perm_swap.
  assert (Hkey : "latency"%string ∈ METRIC_KEYS) by (apply elem_of_cons; by left).
  split; [split; assumption |].
  exact (aggregation_order_independent_except_mean _ _ _ Hp Hkey).
Defined.

(** C5, counterexample: the values 0.1, 0.2, 0.3 of three one-sample
    sessions, aggregated in the two opposite file orders, are the same
    multiset, but in binary64 their mean is 0.20000000000000004 in one
    order and 0.19999999999999998 in the other. *)
Lemma binary64_mean_depends_on_order :
  [0.1; 0.2; 0.3]%float ≡ₚ [0.3; 0.2; 0.1]%float
  ∧ st64_mean <$> compute_stats64 [0.1; 0.2; 0.3]%float
    = Ok 0.20000000000000004%float
  ∧ st64_mean <$> compute_stats64 [0.3; 0.2; 0.1]%float
    = Ok 0.19999999999999998%float
  ∧ (0.20000000000000004 =? 0.19999999999999998)%float = false.
Proof.
  split; [exact (Permutation_rev [0.1; 0.2; 0.3]%float) |].
  repeat split; vm_compute; reflexivity.
Qed.

(** C6 (as amended): whenever the returned count is positive, the
    returned minimum is at most the returned maximum. *)
Theorem compute_stats_min_le_max (arr : list Qc) :
  ∃ st,
    compute_stats arr = Ok st
    ∧ ((0 < st_count st)%Z → pyfloat_le (st_min st) (st_max st)).
Proof.
  destruct (decide (arr = [])) as [->|Hne].
  - eexists. split; [reflexivity |]. simpl. lia.
  - destruct (compute_stats_nonempty arr Hne)
      as (mn & mx & [Hmn _] & [_ Hmx] & ->).
    eexists. split; [reflexivity |]. intros _. simpl. by apply Hmx.
Qed.

Lemma compute_stats_min_le_max_witness :
  ∃ st,
    compute_stats [qz 20; qz 10; qz 30] = Ok st
    ∧ (0 < st_count st)%Z
    ∧ pyfloat_le (st_min st) (st_max st).
Proof.
  destruct (compute_stats_min_le_max [qz 20; qz 10; qz 30]) as (st & Hst & Hle).
  assert (Hcount : (0 < st_count st)%Z).
  { assert (Hc : st_count <$> compute_stats [qz 20; qz 10; qz 30] = Ok 3%Z)
      by (vm_compute; reflexivity).
    rewrite Hst in Hc. injection Hc as ->. reflexivity. }
  exists st. split; [exact Hst |]. split; [exact Hcount |]. exact (Hle Hcount).
Defined.

(** C6, counterexample: in binary64 each of the other orderings fails on a
    collection of finite values.  The mean of three values 0.1 exceeds the
    maximum; the mean of twice -1e308 is minus infinity, below the
    minimum; the p50 of -1e308 and 1e308 is minus infinity, below the
    minimum; the p50 of -1e308, -1e308, 1e308 is nan, so it is neither at
    most p95 nor at most the maximum; and for 21 values -1e308 with one
    1e308 the p99 is minus infinity, below the p95. *)
Lemma binary64_statistics_out_of_order :
  (λ st, st64_max st <? st64_mean st)%float
    <$> compute_stats64 [0.1; 0.1; 0.1]%float = Ok true
  ∧ (λ st, st64_mean st <? st64_min st)%float
      <$> compute_stats64 [-1e308; -1e308]%float = Ok true
  ∧ (λ st, st64_p50 st <? st64_min st)%float
      <$> compute_stats64 [-1e308; 1e308]%float = Ok true
  ∧ (λ st, (st64_p50 st <=? st64_p95 st)%float
           || (st64_p50 st <=? st64_max st)%float)
      <$> compute_stats64 [-1e308; -1e308; 1e308]%float = Ok false
  ∧ (λ st, st64_p99 st <? st64_p95 st)%float
      <$> compute_stats64 (1e308 :: replicate 21 (-1e308))%float = Ok true.
Proof. repeat split; vm_compute; reflexivity. Qed.

(** * Further properties of the code *)

(** ** Further properties of [compute_stats] *)

Lemma compute_stats_cases (arr : list Qc) :
  (arr = [] ∧ compute_stats arr = Ok (mkStats NaN NaN NaN NaN NaN NaN 0))
  ∨ (arr ≠ []
     ∧ ∃ mn mx,
         is_minimum mn arr ∧ is_maximum mx arr
         ∧ compute_stats arr
           = Ok (mkStats (Finite (np_sum arr / Qc_of_nat (length arr)))
                   (Finite (quantile_at arr q50)) (Finite (quantile_at arr q95))
                   (Finite (quantile_at arr q99))
                   (Finite mn) (Finite mx) (Z.of_nat (length arr)))).
Proof.
  destruct (decide (arr = [])) as [->|Hne]; [left; by split | right].
  split; [exact Hne | by apply compute_stats_nonempty].
Qed.

Lemma nth_constant (s : list Qc) (x : Qc) (i : nat) :
  Forall (λ y, y = x) s → (i < length s)%nat → nth i s 0 = x.
Proof.
  intros Hall Hi. rewrite nth_lookup.
  destruct (lookup_lt_is_Some_2 s i Hi) as [y Hy]. rewrite Hy. simpl.
  by apply (proj1 (Forall_lookup _ s) Hall i y).
Qed.

Lemma interpolate_constant (s : list Qc) (last : nat) (v x : Qc) :
  length s = S last → Forall (λ y, y = x) s → 0 ≤ v →
  interpolate s last v = x.
Proof.
  intros Hlen Hall Hv. unfold interpolate.
  destruct (decide (Qc_of_nat last ≤ v)) as [Habove|Hin].
  - apply nth_constant; [done | lia].
  - apply Qcnot_le_lt in Hin.
    destruct (floor_split v last Hv Hin) as (Hf & _).
    cbv zeta. rewrite !(nth_constant s x) by (done || lia). ring.
Qed.

(** X3: A collection whose values are all equal to [v] has every
    percentile and both extrema equal to [v]. *)
Theorem compute_stats_constant (arr : list Qc) (v : Qc) :
  arr ≠ [] →
  Forall (λ x, x = v) arr →
  ∃ st,
    compute_stats arr = Ok st
    ∧ st_count st = Z.of_nat (length arr)
    ∧ Forall (λ f, f = Finite v)
        [st_p50 st; st_p95 st; st_p99 st; st_min st; st_max st].
Proof.
  intros Hne Hall.
  destruct (compute_stats_nonempty arr Hne)
    as (mn & mx & [Hmn _] & [Hmx _] & ->).
  eexists. split; [reflexivity |]. split; [reflexivity |].
  cbn [st_p50 st_p95 st_p99 st_min st_max].
  assert (Hq : ∀ q, 0 ≤ q → quantile_at arr q = v).
  { intros q Hq. unfold quantile_at.
    pose proof (Qc_of_nat_nonneg (length arr - 1)) as Hn.
    apply interpolate_constant.
    - rewrite merge_sort_length. destruct arr; [done | simpl; lia].
    - by rewrite merge_sort_Permutation.
    - qc2q. nra. }
  rewrite Forall_forall in Hall.
  rewrite !Hq by (by vm_compute).
  rewrite (Hall mn Hmn), (Hall mx Hmx). by repeat constructor.
Qed.

Lemma compute_stats_constant_witness :
  ([qz 7; qz 7; qz 7] ≠ [] ∧ Forall (λ x, x = qz 7) [qz 7; qz 7; qz 7])
  ∧ ∃ st,
      compute_stats [qz 7; qz 7; qz 7] = Ok st
      ∧ st_count st = Z.of_nat (length [qz 7; qz 7; qz 7])
      ∧ Forall (λ f, f = Finite (qz 7))
          [st_p50 st; st_p95 st; st_p99 st; st_min st; st_max st].
Proof.
  assert (Hne : [qz 7; qz 7; qz 7] ≠ []) by discriminate.
  assert (Hall : Forall (λ x, x = qz 7) [qz 7; qz 7; qz 7])
    by (repeat constructor).
  split; [split; assumption |].
  exact (compute_stats_constant _ _ Hne Hall).
Defined.

(** ** Statistics of two collections taken together *)

Lemma is_minimum_app (x y : Qc) (l1 l2 : list Qc) :
  is_minimum x l1 → is_minimum y l2 → is_minimum (Qcmin x y) (l1 ++ l2).
Proof.
  intros [Hx Hxle] [Hy Hyle].
  destruct (Qcmin_spec x y) as (H1 & H2 & Hxy). split.
  - apply elem_of_app. destruct Hxy as [->| ->]; [by left | by right].
  - intros z [Hz|Hz]%elem_of_app.
    + eapply Qcle_trans; [exact H1 | by apply Hxle].
    + eapply Qcle_trans; [exact H2 | by apply Hyle].
Qed.

Lemma is_maximum_app (x y : Qc) (l1 l2 : list Qc) :
  is_maximum x l1 → is_maximum y l2 → is_maximum (Qcmax x y) (l1 ++ l2).
Proof.
  intros [Hx Hxle] [Hy Hyle].
  destruct (Qcmax_spec x y) as (H1 & H2 & Hxy). split.
  - apply elem_of_app. destruct Hxy as [->| ->]; [by left | by right].
  - intros z [Hz|Hz]%elem_of_app.
    + eapply Qcle_trans; [by apply Hxle | exact H1].
    + eapply Qcle_trans; [by apply Hyle | exact H2].
Qed.

(** X6: Merging two non-empty collections: the counts add, and the minimum
    and the maximum are those of the two minima and of the two maxima. *)
Theorem compute_stats_app (l1 l2 : list Qc) :
  l1 ≠ [] → l2 ≠ [] →
  ∃ mn1 mn2 mx1 mx2 s1 s2 s,
    compute_stats l1 = Ok s1 ∧ compute_stats l2 = Ok s2
    ∧ compute_stats (l1 ++ l2) = Ok s
    ∧ st_min s1 = Finite mn1 ∧ st_min s2 = Finite mn2
    ∧ st_max s1 = Finite mx1 ∧ st_max s2 = Finite mx2
    ∧ st_count s = (st_count s1 + st_count s2)%Z
    ∧ st_min s = Finite (Qcmin mn1 mn2)
    ∧ st_max s = Finite (Qcmax mx1 mx2).
Proof.
  intros H1 H2.
  assert (H12 : l1 ++ l2 ≠ []) by (by destruct l1).
  destruct (compute_stats_nonempty l1 H1) as (mn1 & mx1 & Hmn1 & Hmx1 & Hs1).
  destruct (compute_stats_nonempty l2 H2) as (mn2 & mx2 & Hmn2 & Hmx2 & Hs2).
  destruct (compute_stats_nonempty _ H12) as (mn & mx & Hmn & Hmx & Hs).
  eexists mn1, mn2, mx1, mx2, _, _, _.
  split; [exact Hs1 |]. split; [exact Hs2 |]. split; [exact Hs |].
  cbn [st_min st_max st_count].
  repeat (split; [reflexivity |]).
  split; [by rewrite length_app, Nat2Z.inj_add |].
  split; f_equal.
  - apply (is_minimum_unique _ _ (l1 ++ l2) (l1 ++ l2));
      [done | done | by apply is_minimum_app].
  - apply (is_maximum_unique _ _ (l1 ++ l2) (l1 ++ l2));
      [done | done | by apply is_maximum_app].
Qed.

Lemma compute_stats_app_witness :
  ([qz 10; qz 20] ≠ [] ∧ [qz 30] ≠ [])
  ∧ ∃ mn1 mn2 mx1 mx2 s1 s2 s,
      compute_stats [qz 10; qz 20] = Ok s1 ∧ compute_stats [qz 30] = Ok s2
      ∧ compute_stats ([qz 10; qz 20] ++ [qz 30]) = Ok s
      ∧ st_min s1 = Finite mn1 ∧ st_min s2 = Finite mn2
      ∧ st_max s1 = Finite mx1 ∧ st_max s2 = Finite mx2
      ∧ st_count s = (st_count s1 + st_count s2)%Z
      ∧ st_min s = Finite (Qcmin mn1 mn2)
      ∧ st_max s = Finite (Qcmax mx1 mx2).
Proof.
  assert (H1 : [qz 10; qz 20] ≠ []) by discriminate.
  assert (H2 : [qz 30] ≠ []) by discriminate.
  split; [split; assumption |].
  exact (compute_stats_app _ _ H1 H2).
Defined.

(** ** Aggregation: composition and totals *)

Lemma Zsum_app (l1 l2 : list Z) : Zsum (l1 ++ l2) = (Zsum l1 + Zsum l2)%Z.
Proof.
  induction l1 as [|x l1 IH]; [reflexivity |].
  cbn [app Zsum foldr]. fold (Zsum (l1 ++ l2)) (Zsum l1). rewrite IH. lia.
Qed.

(** X7: Aggregating two lists of documents one after the other: under every
    metric kind the values of the first list are followed by those of the
    second, and both totals add. *)
Theorem aggregate_metrics_app (files1 files2 : list SessionData) :
  ∃ st1 st2 st,
    aggregate_metrics files1 = Ok st1
    ∧ aggregate_metrics files2 = Ok st2
    ∧ aggregate_metrics (files1 ++ files2) = Ok st
    ∧ st.1.2 = (st1.1.2 + st2.1.2)%Z
    ∧ st.2 = (st1.2 + st2.2)%Z
    ∧ ∀ key, st.1.1 !! key
             = (st1.1.1 !! key) ≫= λ vs1,
               (st2.1.1 !! key) ≫= λ vs2, Some (vs1 ++ vs2).
Proof.
  eexists _, _, _. rewrite !aggregate_metrics_Ok.
  do 3 (split; [reflexivity |]). cbn [fst snd].
  rewrite !fmap_app, !Zsum_app.
  split; [reflexivity |]. split; [reflexivity |].
  intros key. rewrite !lookup_aggregated.
  destruct (decide (key ∈ METRIC_KEYS)); [| reflexivity].
  simpl. by rewrite fmap_app, join_app.
Qed.

Lemma sample_contribution_no_summary_samples (data : SessionData) :
  (∀ s, data_summary data = Some s → samples s = None) →
  sample_contribution data
  = Z.of_nat (length (session_values "latency" data)).
Proof.
  intros H. unfold sample_contribution, latency_length.
  destruct (data_summary data) as [s|]; [| reflexivity].
  by rewrite (H s eq_refl).
Qed.

Lemma Zsum_no_summary_samples (files : list SessionData) :
  Forall (λ data, ∀ s, data_summary data = Some s → samples s = None) files →
  Zsum (sample_contribution <$> files)
  = Z.of_nat (length (mjoin (session_values "latency" <$> files))).
Proof.
  induction 1 as [|data files Hd _ IH]; [reflexivity |].
  rewrite !fmap_cons.
  change (Zsum (sample_contribution data :: (sample_contribution <$> files)))
    with (sample_contribution data + Zsum (sample_contribution <$> files))%Z.
  change (mjoin (session_values "latency" data
                 :: (session_values "latency" <$> files)))
    with (session_values "latency" data
          ++ mjoin (session_values "latency" <$> files)).
  rewrite length_app, Nat2Z.inj_add, <- IH.
  by rewrite <- sample_contribution_no_summary_samples.
Qed.

(** X8: When no document's summary has a [samples] entry, the total sample
    count is the number of aggregated latency values. *)
Theorem total_samples_counts_latency (files : list SessionData) :
  Forall (λ data, ∀ s, data_summary data = Some s → samples s = None) files →
  ∃ st latency,
    aggregate_metrics files = Ok st
    ∧ st.1.1 !! "latency"%string = Some latency
    ∧ st.1.2 = Z.of_nat (length latency).
Proof.
  intros Hall. eexists _, _. rewrite aggregate_metrics_Ok.
  split; [reflexivity |]. cbn [fst snd].
  rewrite lookup_aggregated, decide_True by (apply elem_of_cons; by left).
  split; [reflexivity |]. by apply Zsum_no_summary_samples.
Qed.

Lemma total_samples_counts_latency_witness :
  Forall (λ data, ∀ s, data_summary data = Some s → samples s = None)
    [session_a; session_b]
  ∧ ∃ st latency,
      aggregate_metrics [session_a; session_b] = Ok st
      ∧ st.1.1 !! "latency"%string = Some latency
      ∧ st.1.2 = Z.of_nat (length latency).
Proof.
  assert (H : Forall (λ data, ∀ s, data_summary data = Some s → samples s = None)
                [session_a; session_b])
    by (repeat constructor; intros s Hs; discriminate Hs).
  split; [exact H |]. exact (total_samples_counts_latency _ H).
Defined.

(** ** The bar data and the report of [main] *)

Lemma compute_stats_returns (arr : list Qc) : returns (compute_stats arr).
Proof.
  destruct (compute_stats_cases arr)
    as [[_ Hst]|(_ & mn & mx & _ & _ & Hst)]; by eexists.
Qed.


Lemma build_bar_data_returns (b e : gmap string (list Qc)) (key : string) :
  is_Some (b !! key) → is_Some (e !! key) → returns (build_bar_data b e key).
Proof.
  intros [b_arr Hb] [e_arr He]. unfold build_bar_data, getitem.
  rewrite Hb. cbn [rbind]. destruct (compute_stats_returns b_arr) as [? ->].
  cbn [rbind]. rewrite He. cbn [rbind].
  destruct (compute_stats_returns e_arr) as [? ->]. by eexists.
Qed.

Lemma lookup_UNITS (key : string) : key ∈ METRIC_KEYS → is_Some (UNITS !! key).
Proof.
  intros Hk. repeat (apply elem_of_cons in Hk as [->|Hk]; [by eexists |]).
  by apply elem_of_nil in Hk.
Qed.

Lemma summary_block_returns (metrics : gmap string (list Qc)) (key : string) :
  has_metric_keys metrics → key ∈ METRIC_KEYS →
  ∃ units stats,
    summary_block metrics key = Ok (mkBlock key units stats)
    ∧ UNITS !! key = Some units.
Proof.
  intros Hm Hk. destruct (Hm key Hk) as [arr Harr].
  destruct (lookup_UNITS key Hk) as [units Hu].
  destruct (compute_stats_returns arr) as [stats Hst].
  exists units, stats. unfold summary_block, getitem.
  rewrite Harr. cbn [rbind]. rewrite Hst. cbn [rbind]. by rewrite Hu.
Qed.

Lemma rmap_summary_block (metrics : gmap string (list Qc)) (keys : list string) :
  has_metric_keys metrics →
  (∀ k, k ∈ keys → k ∈ METRIC_KEYS) →
  ∃ blocks,
    rmap (summary_block metrics) keys = Ok blocks
    ∧ blk_metric <$> blocks = keys
    ∧ Forall (λ blk, UNITS !! blk_metric blk = Some (blk_units blk)) blocks.
Proof.
  intros Hm. induction keys as [|key keys IH]; intros Hkeys.
  - exists []. by repeat split.
  - destruct (summary_block_returns metrics key Hm) as (units & stats & Hb & Hu).
    { apply Hkeys, elem_of_cons. by left. }
    destruct IH as (blocks & Hbs & Hnames & Hunits).
    { intros k Hk. apply Hkeys, elem_of_cons. by right. }
    exists (mkBlock key units stats :: blocks).
    cbn [rmap]. rewrite Hb. cbn [rbind]. rewrite Hbs. cbn [rbind].
    split; [reflexivity |]. split; [by rewrite fmap_cons, Hnames |].
    by apply Forall_cons.
Qed.

Lemma aggregated_has_metric_keys (files : list SessionData) :
  has_metric_keys (foldl add_session initial_metrics files).
Proof.
  intros k Hk. rewrite lookup_aggregated, decide_True by done. by eexists.
Qed.

Lemma make_overall_plot_returns (b e : gmap string (list Qc)) :
  has_metric_keys b → has_metric_keys e →
  ∃ bars, make_overall_plot b e = Ok bars ∧ length bars = 4%nat.
Proof.
  intros Hb He. unfold make_overall_plot.
  assert (Hret : ∀ key, key ∈ METRIC_KEYS → returns (build_bar_data b e key)).
  { intros key Hk. apply build_bar_data_returns; [by apply Hb | by apply He]. }
  destruct (Hret "latency"%string) as [? ->]; [compute_done |].
  destruct (Hret "jitter"%string) as [? ->]; [compute_done |].
  destruct (Hret "packetLoss"%string) as [? ->]; [compute_done |].
  destruct (Hret "bitrate"%string) as [? ->]; [compute_done |].
  by eexists.
Qed.

(** X10: When [main] ends through [sys.exit], the status is 1 and the path
    is not a directory or one of the two file lists is empty.  When it
    completes, neither was the case, each configuration's summary has the
    five metric blocks in order, each with its unit, and the figure has
    four groups of bars. *)
Theorem main_exit_or_report (is_dir : bool)
    (baseline_files e2ee_files : list SessionData) :
  match main is_dir baseline_files e2ee_files with
  | Exited code =>
      code = 1%Z ∧ (is_dir = false ∨ baseline_files = [] ∨ e2ee_files = [])
  | Completed report =>
      is_dir = true ∧ baseline_files ≠ [] ∧ e2ee_files ≠ []
      ∧ blk_metric <$> txt_blocks (main_baseline report) = METRIC_KEYS
      ∧ blk_metric <$> txt_blocks (main_e2ee report) = METRIC_KEYS
      ∧ Forall (λ blk, UNITS !! blk_metric blk = Some (blk_units blk))
          (txt_blocks (main_baseline report) ++ txt_blocks (main_e2ee report))
      ∧ length (main_bars report) = 4%nat
  | Uncaught _ => True
  end.
Proof.
  unfold main. destruct is_dir; [| by split; [| left]]. cbn [negb].
  destruct baseline_files as [|b0 bs]; [by split; [| right; left] |].
  destruct e2ee_files as [|e0 es]; [by split; [| right; right] |].
  unfold main_body. rewrite !aggregate_metrics_Ok. cbn [rbind fst snd].
  unfold print_summary.
  destruct (rmap_summary_block _ METRIC_KEYS
              (aggregated_has_metric_keys (b0 :: bs)) (λ k Hk, Hk))
    as (b_blocks & -> & Hb_names & Hb_units).
  cbn [rbind].
  destruct (rmap_summary_block _ METRIC_KEYS
              (aggregated_has_metric_keys (e0 :: es)) (λ k Hk, Hk))
    as (e_blocks & -> & He_names & He_units).
  cbn [rbind].
  destruct (make_overall_plot_returns _ _
              (aggregated_has_metric_keys (b0 :: bs))
              (aggregated_has_metric_keys (e0 :: es)))
    as (bars & -> & Hbars).
  cbn [rbind main_baseline main_e2ee main_bars txt_blocks].
  repeat split; try done. by apply Forall_app.
Qed.

(** ** The frames of [extract_metrics_timeseries] *)

Lemma lookup_extract (data : SessionData)
    (metrics : gmap string (list MetricSample)) (dfs : gmap string (list Row))
    (name : string) :
  data_metrics data = Some metrics →
  extract_metrics_timeseries data = Some dfs →
  dfs !! name
  = if decide (name ∈ METRIC_KEYS) then frame_for data metrics name else None.
Proof.
  intros Hm. unfold extract_metrics_timeseries. rewrite Hm.
  intros Hdfs. apply (inj Some) in Hdfs. subst dfs.
  rewrite lookup_timeseries_fold, lookup_empty.
  destruct (decide (name ∈ METRIC_KEYS)); [| reflexivity].
  by destruct (frame_for data metrics name).
Qed.

Lemma frame_for_Some (data : SessionData)
    (metrics : gmap string (list MetricSample)) (name : string)
    (frame : list Row) :
  frame_for data metrics name = Some frame
  ↔ ∃ series, metrics !! name = Some series ∧ series ≠ []
              ∧ frame = timeseries_frame data series.
Proof.
  unfold frame_for. split.
  - destruct (metrics !! name) as [series|]; [| discriminate].
    destruct (decide (0 < length series)%nat) as [Hlen|]; [| discriminate].
    intros Hf. apply (inj Some) in Hf. exists series.
    split; [reflexivity |]. split; [| done].
    intros ->. simpl in Hlen. lia.
  - intros (series & -> & Hne & ->).
    rewrite decide_True; [reflexivity |]. destruct series; [done | simpl; lia].
Qed.

(** X11: A frame is stored under a name exactly when the name is one of the
    five metric kinds and the document has a non-empty series for it; the
    frame then has one row per sample, so no stored frame is empty. *)
Theorem timeseries_frames_exactly (data : SessionData)
    (dfs : gmap string (list Row)) (name : string) (frame : list Row) :
  extract_metrics_timeseries data = Some dfs →
  dfs !! name = Some frame
  ↔ name ∈ METRIC_KEYS
    ∧ frame ≠ []
    ∧ ∃ metrics series,
        data_metrics data = Some metrics
        ∧ metrics !! name = Some series
        ∧ series ≠ []
        ∧ frame = timeseries_frame data series.
Proof.
  intros Hdfs.
  destruct (data_metrics data) as [metrics|] eqn:Hm;
    [| unfold extract_metrics_timeseries in Hdfs; by rewrite Hm in Hdfs].
  rewrite (lookup_extract data metrics dfs name Hm Hdfs). split.
  - destruct (decide (name ∈ METRIC_KEYS)) as [Hname|]; [| discriminate].
    intros (series & Hs & Hne & ->)%frame_for_Some.
    split; [exact Hname |]. split.
    + destruct series; [done | discriminate].
    + by exists metrics, series.
  - intros (Hname & _ & metrics' & series & Hm' & Hs & Hne & ->).
    apply (inj Some) in Hm'. subst metrics'.
    rewrite decide_True by exact Hname. apply frame_for_Some. by exists series.
Qed.

Lemma timeseries_frames_exactly_witness :
  extract_metrics_timeseries session_a = Some session_a_dfs
  ∧ (session_a_dfs !! "latency"%string = Some session_a_frame
     ↔ "latency"%string ∈ METRIC_KEYS
       ∧ session_a_frame ≠ []
       ∧ ∃ metrics series,
           data_metrics session_a = Some metrics
           ∧ metrics !! "latency"%string = Some series
           ∧ series ≠ []
           ∧ session_a_frame = timeseries_frame session_a series).
Proof.
  assert (H : extract_metrics_timeseries session_a = Some session_a_dfs)
    by (vm_compute; reflexivity).
  split; [exact H |].
  exact (timeseries_frames_exactly session_a session_a_dfs "latency"
           session_a_frame H).
Defined.

(** X12: With a non-negative interval the elapsed-time axis of a frame
    starts at zero and never decreases from one row to a later one,
    whatever the samples' timestamps. *)
Theorem elapsed_sec_monotone (data : SessionData) (dfs : gmap string (list Row))
    (name : string) (frame : list Row) :
  (0 ≤ default 1000 (data_interval data))%Z →
  extract_metrics_timeseries data = Some dfs →
  dfs !! name = Some frame →
  (∀ row, frame !! 0%nat = Some row → elapsed_sec row = 0)
  ∧ ∀ i j row row',
      (i ≤ j)%nat →
      frame !! i = Some row → frame !! j = Some row' →
      elapsed_sec row ≤ elapsed_sec row'.
Proof.
  intros Hint Hdfs Hframe.
  destruct (data_metrics data) as [metrics|] eqn:Hm;
    [| unfold extract_metrics_timeseries in Hdfs; by rewrite Hm in Hdfs].
  rewrite (lookup_extract data metrics dfs name Hm Hdfs) in Hframe.
  destruct (decide (name ∈ METRIC_KEYS)); [| discriminate].
  apply frame_for_Some in Hframe as (series & _ & _ & ->).
  split.
  - intros row. rewrite lookup_timeseries_frame.
    destruct (series !! 0%nat); [| discriminate].
    intros Hrow. apply (inj Some) in Hrow. subst row. cbn [elapsed_sec].
    rewrite Qc_of_nat_0. unfold Qcdiv. ring.
  - intros i j row row' Hij. rewrite !lookup_timeseries_frame.
    destruct (series !! i); [| discriminate].
    destruct (series !! j); [| discriminate].
    intros Hrow Hrow'. apply (inj Some) in Hrow, Hrow'. subst row row'.
    cbn [elapsed_sec].
    pose proof (Qc_of_nat_le i j Hij) as Hle.
    pose proof (Qc_of_nat_nonneg i) as Hi.
    assert (Hc : 0 ≤ qz (default 1000%Z (data_interval data))).
    { unfold Qcle, qz. rewrite this_of_Z. change (this 0) with (inject_Z 0).
      by rewrite <- Zle_Qle. }
    set (c := qz (default 1000%Z (data_interval data))) in *.
    set (a := Qc_of_nat i) in *. set (b := Qc_of_nat j) in *.
    clearbody a b c.
    assert (H1000 : qz 1000 = Q2Qc 1000) by (by apply Qc_is_canon).
    rewrite H1000. qc2q.
    apply Qmult_le_compat_r; [| by vm_compute]. nra.
Qed.

Lemma elapsed_sec_monotone_witness :
  ((0 ≤ default 1000 (data_interval session_a))%Z
   ∧ extract_metrics_timeseries session_a = Some session_a_dfs
   ∧ session_a_dfs !! "latency"%string = Some session_a_frame)
  ∧ (∀ row, session_a_frame !! 0%nat = Some row → elapsed_sec row = 0)
  ∧ ∀ i j row row',
      (i ≤ j)%nat →
      session_a_frame !! i = Some row → session_a_frame !! j = Some row' →
      elapsed_sec row ≤ elapsed_sec row'.
Proof.
  assert (H0 : (0 ≤ default 1000 (data_interval session_a))%Z)
    by (vm_compute; discriminate).
  assert (H1 : extract_metrics_timeseries session_a = Some session_a_dfs)
    by (vm_compute; reflexivity).
  assert (H2 : session_a_dfs !! "latency"%string = Some session_a_frame)
    by (vm_compute; reflexivity).
  split; [repeat split; assumption |].
  exact (elapsed_sec_monotone session_a session_a_dfs "latency"
           session_a_frame H0 H1 H2).
Defined.

(** ** The report of one document *)

Lemma np_quantile_returns (arr : list Qc) (q : Qc) :
  arr ≠ [] → 0 ≤ q → returns (np_quantile arr q).
Proof. intros Hne Hq. rewrite np_quantile_interpolate by done. by eexists. Qed.

Lemma snd_frame_curve (df : list Row) : snd <$> frame_curve df = row_value <$> df.
Proof. unfold frame_curve. by rewrite <- list_fmap_compose. Qed.

Lemma row_value_timeseries_frame (data : SessionData) (series : list MetricSample) :
  row_value <$> timeseries_frame data series = value <$> series.
Proof.
  apply list_eq. intros i.
  rewrite !list_lookup_fmap, lookup_timeseries_frame.
  by destruct (series !! i).
Qed.

(** What is stored under a metric kind, against what the document
    contributes to that kind. *)
Lemma frame_lookup_cases (data : SessionData)
    (metrics : gmap string (list MetricSample)) (dfs : gmap string (list Row))
    (name : string) :
  data_metrics data = Some metrics →
  extract_metrics_timeseries data = Some dfs →
  name ∈ METRIC_KEYS →
  (session_values name data = [] ∧ (dfs !! name = None))
  ∨ (∃ row df v vs,
       dfs !! name = Some (row :: df)
       ∧ session_values name data = v :: vs
       ∧ row_value <$> (row :: df) = v :: vs).
Proof.
  intros Hm Hdfs Hname.
  rewrite (lookup_extract data metrics dfs name Hm Hdfs), decide_True by done.
  unfold session_values, frame_for. rewrite Hm.
  destruct (metrics !! name) as [[|point series]|]; [by left | | by left].
  right. rewrite decide_True by (simpl; lia).
  pose proof (row_value_timeseries_frame data (point :: series)) as Hv.
  destruct (timeseries_frame data (point :: series)) as [|row df] eqn:Hf;
    [discriminate |].
  by exists row, df, (value point), (value <$> series).
Qed.

Section plots.
Variables (data : SessionData) (metrics : gmap string (list MetricSample))
  (dfs : gmap string (list Row)).
Hypothesis Hm : data_metrics data = Some metrics.
Hypothesis Hdfs : extract_metrics_timeseries data = Some dfs.

Ltac plot_cases name :=
  destruct (frame_lookup_cases data metrics dfs name Hm Hdfs)
    as [[Hvs ->]|(row & df & v & vs & -> & Hvs & Hrows)];
  [compute_done | | ];
  unfold plotted; rewrite Hvs.

Lemma plot_latency_plotted :
  ∃ plot, plot_latency dfs = Ok plot ∧ plotted data "latency" 3 plot.
Proof.
  unfold plot_latency. plot_cases "latency"%string; [by eexists |].
  destruct (np_quantile_returns (row_value <$> row :: df) q95) as [p95 ->];
    [by rewrite Hrows | by vm_compute |].
  destruct (np_quantile_returns (row_value <$> row :: df) q99) as [p99 ->];
    [by rewrite Hrows | by vm_compute |].
  eexists. split; [reflexivity |]. eexists. split; [reflexivity |].
  cbn [plot_curve plot_lines]. rewrite snd_frame_curve, Hrows.
  split; reflexivity.
Qed.

Lemma plot_jitter_plotted :
  ∃ plot, plot_jitter dfs = Ok plot ∧ plotted data "jitter" 2 plot.
Proof.
  unfold plot_jitter. plot_cases "jitter"%string; [by eexists |].
  destruct (np_quantile_returns (row_value <$> row :: df) q95) as [p95 ->];
    [by rewrite Hrows | by vm_compute |].
  eexists. split; [reflexivity |]. eexists. split; [reflexivity |].
  cbn [plot_curve plot_lines]. rewrite snd_frame_curve, Hrows.
  split; reflexivity.
Qed.

Lemma plot_packet_loss_plotted :
  ∃ plot, plot_packet_loss dfs = Ok plot ∧ plotted data "packetLoss" 1 plot.
Proof.
  unfold plot_packet_loss. plot_cases "packetLoss"%string; [by eexists |].
  eexists. split; [reflexivity |]. eexists. split; [reflexivity |].
  cbn [plot_curve plot_lines]. rewrite snd_frame_curve, Hrows.
  split; reflexivity.
Qed.

Lemma plot_bitrate_plotted :
  ∃ plot, plot_bitrate dfs = Ok plot ∧ plotted data "bitrate" 1 plot.
Proof.
  unfold plot_bitrate. plot_cases "bitrate"%string; [by eexists |].
  eexists. split; [reflexivity |]. eexists. split; [reflexivity |].
  cbn [plot_curve plot_lines]. rewrite snd_frame_curve, Hrows.
  split; reflexivity.
Qed.
End plots.

(** X13: When [generate_report] returns, it has returned early, without
    statistics or plots, exactly when the document has no metrics.
    Otherwise each of the latency, jitter, packet-loss and bitrate plots
    is drawn exactly when the document has values for that kind, with a
    curve through all of them in order and 3, 2, 1 and 1 statistic
    lines. *)
Theorem generate_report_plots (data : SessionData) :
  match generate_report data with
  | Raise _ => True
  | Ok None => data_metrics data = None
  | Ok (Some report) =>
      is_Some (data_metrics data)
      ∧ rep_statistics report = print_statistics data
      ∧ plotted data "latency" 3 (rep_latency report)
      ∧ plotted data "jitter" 2 (rep_jitter report)
      ∧ plotted data "packetLoss" 1 (rep_packet_loss report)
      ∧ plotted data "bitrate" 1 (rep_bitrate report)
  end.
Proof.
  unfold generate_report.
  destruct (extract_metrics_timeseries data) as [dfs|] eqn:Hdfs.
  - destruct (data_metrics data) as [metrics|] eqn:Hm;
      [| unfold extract_metrics_timeseries in Hdfs; by rewrite Hm in Hdfs].
    destruct (plot_latency_plotted data metrics dfs Hm Hdfs) as (? & -> & ?).
    destruct (plot_jitter_plotted data metrics dfs Hm Hdfs) as (? & -> & ?).
    destruct (plot_packet_loss_plotted data metrics dfs Hm Hdfs) as (? & -> & ?).
    destruct (plot_bitrate_plotted data metrics dfs Hm Hdfs) as (? & -> & ?).
    cbn. by repeat split.
  - unfold extract_metrics_timeseries in Hdfs.
    by destruct (data_metrics data).
Qed.

(** X14: The two scripts agree on a document's duration, and on its sample
    count when the summary has one; when the summary has no [samples]
    entry, [print_statistics] reports 0 samples while [aggregate_metrics]
    counts the latency series. *)
Theorem samples_fallback_differs (data : SessionData) :
  ∃ st,
    aggregate_metrics [data] = Ok st
    ∧ stat_duration_s (print_statistics data) = qz st.2 / qz 1000
    ∧ match data_summary data ≫= samples with
      | Some n => stat_samples (print_statistics data) = n ∧ st.1.2 = n
      | None =>
          stat_samples (print_statistics data) = 0%Z
          ∧ st.1.2 = Z.of_nat (length (session_values "latency" data))
      end.
Proof.
  eexists. rewrite aggregate_metrics_Ok. split; [reflexivity |].
  cbn [fst snd fmap list_fmap Zsum foldr]. rewrite !Z.add_0_r.
  unfold print_statistics, duration_contribution, sample_contribution,
    latency_length.
  cbn [stat_duration_s stat_samples].
  destruct (data_summary data) as [s|]; cbn.
  - split; [by destruct (duration s) |]. by destruct (samples s).
  - by split.
Qed.

(** ** The comparison of two documents *)

Lemma compare_metric_row (baseline e2ee : SessionData) (metric : string) :
  ∃ pct,
    compare_metric baseline e2ee metric
    = Ok (mkComparison (summary_stat baseline metric "mean")
            (summary_stat e2ee metric "mean")
            (summary_stat e2ee metric "mean"
             - summary_stat baseline metric "mean") pct)
    ∧ (0 < summary_stat baseline metric "mean" →
       pct * summary_stat baseline metric "mean"
       = (summary_stat e2ee metric "mean"
          - summary_stat baseline metric "mean") * qz 100)
    ∧ (¬ 0 < summary_stat baseline metric "mean" → pct = 0).
Proof.
  unfold compare_metric.
  set (b := summary_stat baseline metric "mean").
  set (e := summary_stat e2ee metric "mean").
  destruct (decide (0 < b)) as [Hpos|Hle].
  - assert (Hnz : b ≠ 0).
    { intros Hz. rewrite Hz in Hpos. by apply Qclt_not_le in Hpos. }
    rewrite py_div_nonzero by exact Hnz. eexists. split; [reflexivity |].
    split; [| done]. intros _. by field.
  - eexists. split; [reflexivity |]. by split.
Qed.

Lemma rmap_Forall2 {A B} (f g : A → result B) (R : B → B → Prop) (l : list A) :
  (∀ x, ∃ y z, f x = Ok y ∧ g x = Ok z ∧ R y z) →
  ∃ ys zs, rmap f l = Ok ys ∧ rmap g l = Ok zs
           ∧ length ys = length l ∧ Forall2 R ys zs.
Proof.
  intros Hfg. induction l as [|x l (ys & zs & Hys & Hzs & Hlen & HR)].
  - exists [], []. by repeat split.
  - destruct (Hfg x) as (y & z & Hy & Hz & Hyz).
    exists (y :: ys), (z :: zs). cbn [rmap]. rewrite Hy, Hz, Hys, Hzs.
    cbn [rbind length]. repeat split; [by rewrite Hlen | by constructor].
Qed.

(** X15: Swapping the two documents swaps the two means of every row and
    negates its difference. *)
Theorem compare_two_tests_swap (baseline e2ee : SessionData) :
  ∃ rows rows',
    compare_two_tests baseline e2ee = Ok rows
    ∧ compare_two_tests e2ee baseline = Ok rows'
    ∧ length rows = 4%nat
    ∧ Forall2 (λ r r', cmp_b_mean r' = cmp_e_mean r
                       ∧ cmp_e_mean r' = cmp_b_mean r
                       ∧ cmp_diff r' = - cmp_diff r) rows rows'.
Proof.
  unfold compare_two_tests. apply rmap_Forall2. intros metric.
  destruct (compare_metric_row baseline e2ee metric) as (pct & -> & _).
  destruct (compare_metric_row e2ee baseline metric) as (pct' & -> & _).
  eexists _, _. do 2 (split; [reflexivity |]).
  cbn. repeat split. ring.
Qed.

Lemma percent_sign (b e pct : Qc) :
  0 < b → pct * b = (e - b) * qz 100 →
  (0 < pct ↔ b < e) ∧ (pct < 0 ↔ e < b) ∧ (pct = 0 ↔ e = b).
Proof.
  intros Hb Hpct. qc2q. change (inject_Z 100) with 100%Q in Hpct.
  repeat split; intros H; qc2q; nra.
Qed.

(** X17: With a positive baseline mean the sign of the percent change tells
    the direction of the change: positive exactly when the treatment mean
    is larger, negative exactly when it is smaller, zero exactly when the
    two means are equal. *)
Theorem compare_metric_percent_sign (baseline e2ee : SessionData)
    (metric : string) :
  0 < summary_stat baseline metric "mean" →
  ∃ row,
    compare_metric baseline e2ee metric = Ok row
    ∧ (0 < cmp_pct row ↔ cmp_b_mean row < cmp_e_mean row)
    ∧ (cmp_pct row < 0 ↔ cmp_e_mean row < cmp_b_mean row)
    ∧ (cmp_pct row = 0 ↔ cmp_e_mean row = cmp_b_mean row).
Proof.
  intros Hpos.
  destruct (compare_metric_row baseline e2ee metric) as (pct & -> & Hpct & _).
  eexists. split; [reflexivity |]. cbn. by apply percent_sign, Hpct.
Qed.

Lemma compare_metric_percent_sign_witness :
  0 < summary_stat baseline_mean_30 "latency" "mean"
  ∧ ∃ row,
      compare_metric baseline_mean_30 e2ee_mean_35 "latency" = Ok row
      ∧ (0 < cmp_pct row ↔ cmp_b_mean row < cmp_e_mean row)
      ∧ (cmp_pct row < 0 ↔ cmp_e_mean row < cmp_b_mean row)
      ∧ (cmp_pct row = 0 ↔ cmp_e_mean row = cmp_b_mean row).
Proof.
  assert (H : 0 < summary_stat baseline_mean_30 "latency" "mean")
    by (by vm_compute).
  split; [exact H |].
  exact (compare_metric_percent_sign baseline_mean_30 e2ee_mean_35
           "latency" H).
Defined.

Lemma rmap_Forall {A B} (f : A → result B) (P : B → Prop) (l : list A) :
  (∀ x, ∃ y, f x = Ok y ∧ P y) →
  ∃ ys, rmap f l = Ok ys ∧ length ys = length l ∧ Forall P ys.
Proof.
  intros Hf. induction l as [|x l (ys & Hys & Hlen & HP)].
  - exists []. by repeat split.
  - destruct (Hf x) as (y & Hy & Hpy).
    exists (y :: ys). cbn [rmap]. rewrite Hy, Hys.
    cbn [rbind length]. repeat split; [by rewrite Hlen | by constructor].
Qed.

(** X18: Comparing a document with itself gives four rows with no difference
    and a percent change of 0. *)
Theorem compare_two_tests_same_document (data : SessionData) :
  ∃ rows,
    compare_two_tests data data = Ok rows
    ∧ length rows = 4%nat
    ∧ Forall (λ r, cmp_diff r = 0 ∧ cmp_pct r = 0) rows.
Proof.
  unfold compare_two_tests. apply rmap_Forall. intros metric.
  destruct (compare_metric_row data data metric) as (pct & -> & Hpct & Hzero).
  eexists. split; [reflexivity |]. cbn. split; [ring |].
  destruct (decide (0 < summary_stat data metric "mean")) as [Hpos|Hle];
    [| by apply Hzero].
  specialize (Hpct Hpos).
  by apply (percent_sign _ (summary_stat data metric "mean") pct Hpos).
Qed.
